(** * MedOptix: the A/B analysis snippet and the dashboard's API service

    Two parts of the repository are embedded here.

    - [docs/ab_testing.md] documents the per-metric analysis with the Python
      function [analyze_metric], built on [numpy] and [scipy.stats].  Python
      floats and numpy's [float64] are IEEE 754 binary64 numbers, which is
      what Rocq's primitive [float] is, so the arithmetic is embedded
      operation for operation.
    - [client/medoptix-dashboard/src/api/apiService.js] is the dashboard's
      data layer: [async] functions over axios, a module-level
      [lastUpdateTimestamp], and mock data.  JavaScript numbers are binary64
      too. *)

From Stdlib Require Import ZArith List String DecimalString Bool Lia Uint63 Floats.
Import ListNotations.

#[local] Set Warnings "-inexact-float,-register-all".

(** ** Facts about binary64 arithmetic

    [SpecFloat] specifies each primitive operation on the inductive view
    [spec_float]; the lemmas below are read off those specifications. *)

Module FloatFacts.

Section Spec.
Variables prec emax : Z.

Lemma binary_round_aux_opp (s : bool) (m e : Z) (l : location) :
  SFopp (binary_round_aux prec emax s m e l)
  = binary_round_aux prec emax (negb s) m e l.
Proof.
  unfold binary_round_aux.
  destruct (shr_fexp prec emax m e l) as [mrs1 e1].
  destruct (shr_fexp prec emax _ e1 loc_Exact) as [mrs2 e2].
  destruct (shr_m mrs2); try reflexivity.
  destruct (Z.leb e2 (emax - prec)); reflexivity.
Qed.

Lemma binary_round_opp (s : bool) (m : positive) (e : Z) :
  SFopp (binary_round prec emax s m e) = binary_round prec emax (negb s) m e.
Proof.
  unfold binary_round.
  destruct (shl_align m e _) as [mz ez].
  apply binary_round_aux_opp.
Qed.

Lemma binary_normalize_opp (m e : Z) :
  m <> 0%Z ->
  binary_normalize prec emax (- m) e false
  = SFopp (binary_normalize prec emax m e false).
Proof.
  destruct m as [|p|p]; intros Hm; [congruence| |]; cbn [Z.opp binary_normalize];
    rewrite binary_round_opp; reflexivity.
Qed.

Lemma SFadd_comm (x y : spec_float) :
  SFadd prec emax x y = SFadd prec emax y x.
Proof.
  destruct x as [sx|sx| |sx mx ex], y as [sy|sy| |sy my ey];
    try reflexivity; try (destruct sx, sy; reflexivity).
  cbn [SFadd]. cbv zeta.
  rewrite (Z.min_comm ey ex).
  rewrite (Z.add_comm (cond_Zopp sy _)).
  reflexivity.
Qed.

(** Subtraction the other way round gives the opposite number, except that
    a difference that is exactly zero is [+0] both ways. *)
Lemma SFsub_swap (x y : spec_float) :
  SFsub prec emax y x = SFopp (SFsub prec emax x y)
  \/ (SFsub prec emax x y = S754_zero false
      /\ SFsub prec emax y x = S754_zero false).
Proof.
  destruct x as [sx|sx| |sx mx ex], y as [sy|sy| |sy my ey];
    try (left; reflexivity);
    try (destruct sx, sy; (left; reflexivity) || (right; split; reflexivity));
    try (destruct sx; left; reflexivity);
    try (destruct sy; left; reflexivity).
  cbn [SFsub]. cbv zeta.
  rewrite (Z.min_comm ey ex).
  set (ez := Z.min ex ey).
  set (a := cond_Zopp sx _).
  set (b := cond_Zopp sy _).
  destruct (Z.eq_dec (a - b) 0) as [H0|H0].
  - right. replace (b - a)%Z with 0%Z by lia. rewrite H0. split; reflexivity.
  - left. replace (b - a)%Z with (- (a - b))%Z by lia.
    apply binary_normalize_opp; assumption.
Qed.

Lemma SFdiv_opp_l (x y : spec_float) :
  SFdiv prec emax (SFopp x) y = SFopp (SFdiv prec emax x y).
Proof.
  destruct x as [sx|sx| |sx mx ex], y as [sy|sy| |sy my ey];
    try reflexivity; try (destruct sx, sy; reflexivity).
  cbn [SFopp SFdiv].
  destruct (SFdiv_core_binary prec emax (Z.pos mx) ex (Z.pos my) ey) as [[mz ez] lz].
  rewrite binary_round_aux_opp.
  destruct sx, sy; reflexivity.
Qed.

Lemma SFmul_opp_opp (x : spec_float) :
  SFmul prec emax (SFopp x) (SFopp x) = SFmul prec emax x x.
Proof.
  destruct x as [sx|sx| |sx mx ex]; try reflexivity;
    destruct sx; reflexivity.
Qed.

Lemma SFabs_opp (x : spec_float) : SFabs (SFopp x) = SFabs x.
Proof. destruct x; reflexivity. Qed.


(** A zero divided by anything is a zero or NaN. *)
Lemma SFdiv_zero_l (s : bool) (y : spec_float) :
  SFdiv prec emax (S754_zero s) y = S754_nan
  \/ exists s', SFdiv prec emax (S754_zero s) y = S754_zero s'.
Proof.
  destruct y as [sy|sy| |sy my ey]; cbn; eauto.
Qed.

Lemma SFcompare_refl (x : spec_float) :
  x <> S754_nan -> SFcompare x x = Some Eq.
Proof.
  destruct x as [sx|sx| |sx mx ex]; intros H; try congruence;
    try (destruct sx; reflexivity).
  cbn. rewrite Z.compare_refl.
  assert (Hm : Pos.compare_cont Eq mx mx = Eq) by apply Pos.compare_cont_refl.
  rewrite Hm. destruct sx; reflexivity.
Qed.


End Spec.

Local Open Scope float_scope.

(** The same facts on the primitive type. *)

Lemma add_comm (x y : float) : x + y = y + x.
Proof.
  apply Prim2SF_inj. rewrite !add_spec. apply SFadd_comm.
Qed.

Lemma sub_swap (x y : float) :
  y - x = - (x - y) \/ (x - y = 0 /\ y - x = 0).
Proof.
  destruct (SFsub_swap prec emax (Prim2SF x) (Prim2SF y)) as [H|[H1 H2]].
  - left. apply Prim2SF_inj. rewrite opp_spec, !sub_spec. exact H.
  - right. split; apply Prim2SF_inj; rewrite sub_spec; assumption.
Qed.

Lemma div_opp_l (x y : float) : (- x) / y = - (x / y).
Proof.
  apply Prim2SF_inj. rewrite opp_spec, !div_spec, opp_spec. apply SFdiv_opp_l.
Qed.

Lemma mul_opp_opp (x : float) : (- x) * (- x) = x * x.
Proof.
  apply Prim2SF_inj. rewrite !mul_spec, opp_spec. apply SFmul_opp_opp.
Qed.

Lemma abs_opp (x : float) : abs (- x) = abs x.
Proof.
  apply Prim2SF_inj. rewrite !abs_spec, opp_spec. apply SFabs_opp.
Qed.

Lemma is_nan_spec (x : float) :
  is_nan x = true <-> Prim2SF x = S754_nan.
Proof.
  unfold is_nan. rewrite eqb_spec. unfold SFeqb. split.
  - intros H. destruct (Prim2SF x) eqn:E; try reflexivity.
    all: rewrite SFcompare_refl in H by discriminate; discriminate.
  - intros ->. reflexivity.
Qed.

Lemma is_nan_opp (x : float) : is_nan (- x) = is_nan x.
Proof.
  apply eq_true_iff_eq. rewrite !is_nan_spec, opp_spec.
  destruct (Prim2SF x); cbn; split; congruence.
Qed.






(** NaN is absorbing for the four operations and the square root. *)
Lemma nan_add_l (y : float) : nan + y = nan.
Proof. apply Prim2SF_inj. rewrite add_spec. reflexivity. Qed.

Lemma nan_add_r (x : float) : x + nan = nan.
Proof. rewrite add_comm. apply nan_add_l. Qed.




Lemma is_nan_eq (x : float) : is_nan x = true -> x = nan.
Proof.
  intros H. apply Prim2SF_inj. apply is_nan_spec in H. rewrite H. reflexivity.
Qed.

(** [float_negation x y]: [x] is the number [- y] (as Python's [==] and
    JavaScript's [===] compare numbers, so that [+0] and [-0] are one
    number), or both are NaN. *)
Definition float_negation (x y : float) : Prop :=
  (x =? - y) = true \/ (is_nan x = true /\ is_nan y = true).

Lemma float_negation_opp (y : float) : float_negation (- y) y.
Proof.
  unfold float_negation. destruct (is_nan y) eqn:E.
  - right. rewrite is_nan_opp. auto.
  - left. rewrite <- is_nan_opp in E. unfold is_nan in E.
    apply negb_false_iff in E. exact E.
Qed.

Lemma float_negation_zero_or_nan (x : float) :
  (Prim2SF x = S754_nan \/ exists s, Prim2SF x = S754_zero s) ->
  float_negation x x.
Proof.
  intros [H|[s H]].
  - right. apply is_nan_spec in H. auto.
  - left. rewrite eqb_spec, opp_spec, H. destruct s; reflexivity.
Qed.

End FloatFacts.

(** ** [numpy], as the snippet uses it

    [np.mean], [np.std] and [np.var] on a one-dimensional array of
    [float64].  numpy adds the elements of an array of fewer than eight
    elements from left to right; longer arrays are added pairwise, which may
    round differently.  The general theorems below reach [sum] through
    [mean], [var] and [std] only and never unfold it; the concrete inputs
    they are evaluated at have at most five elements.  A square [x**2] is
    the product [x * x]. *)

Module Numpy.
Local Open Scope float_scope.

(** [len(xs)] entering float arithmetic. *)
Definition float_of_nat (n : nat) : float :=
  of_uint63 (Uint63.of_Z (Z.of_nat n)).

Definition sum (xs : list float) : float := fold_left add xs 0.

(** [np.mean(xs)]: the sum over the count; [0.0 / 0.0 = nan] for an empty
    array (numpy warns, it does not raise). *)
Definition mean (xs : list float) : float :=
  sum xs / float_of_nat (List.length xs).

(** [np.var(xs, ddof=ddof)]: the mean is subtracted from each element, the
    differences are squared and added, and the sum is divided by
    [max(n - ddof, 0)]. *)
Definition var (ddof : nat) (xs : list float) : float :=
  let m := mean xs in
  sum (map (fun x => (x - m) * (x - m)) xs)
  / float_of_nat (List.length xs - ddof).

(** [np.std(xs)]: [ddof] defaults to [0] (the population standard
    deviation). *)
Definition std (xs : list float) : float := sqrt (var 0 xs).

End Numpy.

(** ** [scipy.stats.ttest_ind]

    [ttest_ind(a, b, axis=0, equal_var=True, ...)] returns the pair
    (statistic, pvalue).  With [equal_var=True], the default, it is Student's
    test with the pooled variance and [n1 + n2 - 2] degrees of freedom; with
    [equal_var=False] it is Welch's test with the Welch-Satterthwaite degrees
    of freedom.  The p-value is the two-sided tail probability of Student's
    law at the statistic; that special function is not arithmetic, and it is
    taken as the parameter [two_sided] (its arguments: the degrees of
    freedom, then the statistic). *)

Module Scipy.
Import Numpy.
Local Open Scope float_scope.

(** scipy's [_equal_var_ttest_denom]: (df, denom). *)
Definition equal_var_ttest_denom (v1 n1 v2 n2 : float) : float * float :=
  let df := n1 + n2 - 2 in
  let svar := ((n1 - 1) * v1 + (n2 - 1) * v2) / df in
  (df, sqrt (svar * (1 / n1 + 1 / n2))).

(** scipy's [_unequal_var_ttest_denom]: (df, denom); a NaN [df] (both
    variances zero) is replaced by [1]. *)
Definition unequal_var_ttest_denom (v1 n1 v2 n2 : float) : float * float :=
  let vn1 := v1 / n1 in
  let vn2 := v2 / n2 in
  let df := (vn1 + vn2) * (vn1 + vn2)
            / (vn1 * vn1 / (n1 - 1) + vn2 * vn2 / (n2 - 1)) in
  let df := if is_nan df then 1 else df in
  (df, sqrt (vn1 + vn2)).

(** The degrees of freedom and the statistic of the test. *)
Definition ttest_ind_stat (a b : list float) (equal_var : bool)
  : float * float :=
  let v1 := var 1 a in
  let v2 := var 1 b in
  let n1 := float_of_nat (List.length a) in
  let n2 := float_of_nat (List.length b) in
  let '(df, denom) :=
    if equal_var then equal_var_ttest_denom v1 n1 v2 n2
    else unequal_var_ttest_denom v1 n1 v2 n2 in
  (df, (mean a - mean b) / denom).

(** [ttest_ind]: (statistic, pvalue); an empty sample gives (nan, nan). *)
Definition ttest_ind (two_sided : float -> float -> float)
  (a b : list float) (equal_var : bool) : float * float :=
  match a, b with
  | [], _ | _, [] => (nan, nan)
  | _, _ =>
      let '(df, t) := ttest_ind_stat a b equal_var in
      (t, two_sided df t)
  end.

End Scipy.

(** ** The analysis of [docs/ab_testing.md] *)

Module Engine.
Import Numpy Scipy.
Local Open Scope float_scope.

(** The dictionary [analyze_metric] returns: these six keys and no other. *)
Record MetricResult : Type := {
  group_a_mean : float;
  group_b_mean : float;
  difference : float;
  p_value : float;
  significant : bool;
  effect_size : float
}.

(** The pooled standard deviation of the snippet:
    [np.sqrt((np.std(a)**2 + np.std(b)**2) / 2)]. *)
Definition pooled_std (group_a_data group_b_data : list float) : float :=
  sqrt ((std group_a_data * std group_a_data
         + std group_b_data * std group_b_data) / 2).

(** [analyze_metric(group_a_data, group_b_data)].  The t-test is called with
    the two samples only, so [equal_var] has its default, [True]. *)
Definition analyze_metric (two_sided : float -> float -> float)
  (group_a_data group_b_data : list float) : MetricResult :=
  let group_a_mean := mean group_a_data in
  let group_b_mean := mean group_b_data in
  let difference := group_a_mean - group_b_mean in
  let '(t_stat, p_value) :=
    ttest_ind two_sided group_a_data group_b_data true in
  let pooled_std := pooled_std group_a_data group_b_data in
  let effect_size := difference / pooled_std in
  {| group_a_mean := group_a_mean;
     group_b_mean := group_b_mean;
     difference := difference;
     p_value := p_value;
     significant := p_value <? 0.05;
     effect_size := effect_size |}.

End Engine.

(** ** Calls of the analysis, seen from the caller *)

Module Session.
Import Engine.

(** The error taxonomy of the specification.  The snippet contains no
    [raise], and numpy answers an empty mean or a division by zero with NaN
    or an infinity and a warning, so none of them is ever produced. *)
Inductive EngineError : Type :=
  | InsufficientDataError
  | UnknownMetricTypeError
  | MismatchedMetricError.

Inductive Outcome (A : Type) : Type :=
  | Returned (a : A)
  | Raised (e : EngineError).
Arguments Returned {A} a.
Arguments Raised {A} e.

(** What a call of [analyze_metric] does: it returns the dictionary. *)
Definition run_analyze_metric (two_sided : float -> float -> float)
  (group_a_data group_b_data : list float) : Outcome MetricResult :=
  Returned (analyze_metric two_sided group_a_data group_b_data).

(** The one piece of mutable state the documented code touches is the
    generator behind [random.choice], which [assign_group] advances.
    [choice n] is the group the generator picks at its [n]-th draw. *)
Inductive Group : Type := GroupA | GroupB.

Record PyState : Type := { rng_position : nat }.

Definition assign_group (choice : nat -> Group) (st : PyState)
  : Group * PyState :=
  (choice (rng_position st), {| rng_position := S (rng_position st) |}).

Inductive Call : Type :=
  | CallAssignGroup
  | CallAnalyzeMetric (group_a_data group_b_data : list float).

Inductive Reply : Type :=
  | GroupReply (g : Group)
  | MetricReply (r : Outcome MetricResult).

Definition step (choice : nat -> Group) (two_sided : float -> float -> float)
  (st : PyState) (c : Call) : Reply * PyState :=
  match c with
  | CallAssignGroup =>
      let '(g, st') := assign_group choice st in (GroupReply g, st')
  | CallAnalyzeMetric a b =>
      (MetricReply (run_analyze_metric two_sided a b), st)
  end.


End Session.

(** ** Student's law

    The contract of the p-value function the t-test relies on, and one
    instance of it that computes. *)

Module StudentT.
Local Open Scope float_scope.

(** [in_unit p]: [0 <= p <= 1]; false for NaN. *)
Definition in_unit (p : float) : bool := (0 <=? p) && (p <=? 1).

(** What scipy's two-sided p-value satisfies whatever its arguments: a result
    that is a number is a probability, a NaN statistic gives NaN, and the
    statistic's sign does not matter. *)
Class StudentLaw (two_sided : float -> float -> float) : Prop := {
  two_sided_probability :
    forall df t, is_nan (two_sided df t) = false ->
                 in_unit (two_sided df t) = true;
  two_sided_nan : forall df, two_sided df nan = nan;
  two_sided_even : forall df t, two_sided df (- t) = two_sided df t
}.

(** Keeps the rounding error of a formula out of the result. *)
Definition clip (p : float) : float :=
  if in_unit p then p
  else if p <? 0 then 0
  else if 1 <? p then 1
  else nan.

(** For 2 and for 4 degrees of freedom the two-sided tail probability of
    Student's law is algebraic:
    [1 - |t| / sqrt (2 + t^2)] and
    [1 - |t| (6 + t^2) / ((4 + t^2) sqrt (4 + t^2))]. *)
Definition two_sided_df2 (t : float) : float :=
  1 - abs t / sqrt (2 + t * t).

Definition two_sided_df4 (t : float) : float :=
  let u := 4 + t * t in
  1 - abs t * (6 + t * t) / (u * sqrt u).

(** The closed forms as a p-value function; NaN for the degrees of freedom
    that have none here. *)
Definition student_two_sided (df t : float) : float :=
  if df =? 2 then clip (two_sided_df2 t)
  else if df =? 4 then clip (two_sided_df4 t)
  else nan.

Lemma clip_probability (p : float) :
  is_nan (clip p) = false -> in_unit (clip p) = true.
Proof.
  unfold clip. destruct (in_unit p) eqn:E; [intros _; exact E|].
  destruct (p <? 0); [reflexivity|].
  destruct (1 <? p); [reflexivity|discriminate].
Qed.

Lemma two_sided_df2_even (t : float) : two_sided_df2 (- t) = two_sided_df2 t.
Proof.
  unfold two_sided_df2.
  rewrite FloatFacts.abs_opp, FloatFacts.mul_opp_opp. reflexivity.
Qed.

Lemma two_sided_df4_even (t : float) : two_sided_df4 (- t) = two_sided_df4 t.
Proof.
  unfold two_sided_df4.
  rewrite FloatFacts.abs_opp, FloatFacts.mul_opp_opp. reflexivity.
Qed.

#[export] Instance student_two_sided_law : StudentLaw student_two_sided.
Proof.
  split.
  - intros df t. unfold student_two_sided.
    destruct (df =? 2); [apply clip_probability|].
    destruct (df =? 4); [apply clip_probability|discriminate].
  - intros df. unfold student_two_sided.
    destruct (df =? 2); [reflexivity|]. destruct (df =? 4); reflexivity.
  - intros df t. unfold student_two_sided.
    rewrite two_sided_df2_even, two_sided_df4_even. reflexivity.
Qed.

End StudentT.

(** ** Properties of the analysis *)

Module EngineProofs.
Import Numpy Scipy Engine Session StudentT FloatFacts.
Local Open Scope float_scope.

(** *** The fields of the result *)

(** The degrees of freedom and the denominator of the pooled test, as
    [ttest_ind_stat] computes them when [equal_var] is true. *)
Definition pooled_df (a b : list float) : float :=
  float_of_nat (List.length a) + float_of_nat (List.length b) - 2.

Definition pooled_denom (a b : list float) : float :=
  let n1 := float_of_nat (List.length a) in
  let n2 := float_of_nat (List.length b) in
  sqrt (((n1 - 1) * var 1 a + (n2 - 1) * var 1 b) / pooled_df a b
        * (1 / n1 + 1 / n2)).


Lemma analyze_metric_means (two_sided : float -> float -> float)
  (a b : list float) :
  group_a_mean (analyze_metric two_sided a b) = mean a
  /\ group_b_mean (analyze_metric two_sided a b) = mean b.
Proof.
  unfold analyze_metric. destruct (ttest_ind two_sided a b true). auto.
Qed.

Lemma analyze_metric_difference (two_sided : float -> float -> float)
  (a b : list float) :
  difference (analyze_metric two_sided a b) = mean a - mean b.
Proof.
  unfold analyze_metric. destruct (ttest_ind two_sided a b true). reflexivity.
Qed.

Lemma analyze_metric_effect_size (two_sided : float -> float -> float)
  (a b : list float) :
  effect_size (analyze_metric two_sided a b)
  = (mean a - mean b) / pooled_std a b.
Proof.
  unfold analyze_metric. destruct (ttest_ind two_sided a b true). reflexivity.
Qed.

Lemma analyze_metric_p_value (two_sided : float -> float -> float)
  (a b : list float) :
  p_value (analyze_metric two_sided a b)
  = snd (ttest_ind two_sided a b true).
Proof.
  unfold analyze_metric. destruct (ttest_ind two_sided a b true). reflexivity.
Qed.

Lemma analyze_metric_significant (two_sided : float -> float -> float)
  (a b : list float) :
  significant (analyze_metric two_sided a b)
  = (p_value (analyze_metric two_sided a b) <? 0.05).
Proof.
  unfold analyze_metric. destruct (ttest_ind two_sided a b true). reflexivity.
Qed.

(** The p-value is NaN for an empty sample, and the law's value at the
    pooled statistic otherwise. *)
Lemma ttest_ind_p_value (two_sided : float -> float -> float)
  (a b : list float) :
  snd (ttest_ind two_sided a b true)
  = match a, b with
    | [], _ | _, [] => nan
    | _, _ => two_sided (pooled_df a b) ((mean a - mean b) / pooled_denom a b)
    end.
Proof.
  destruct a as [|x a], b as [|y b]; reflexivity.
Qed.

(** *** Swapping the two samples *)

Lemma pooled_df_swap (a b : list float) : pooled_df b a = pooled_df a b.
Proof. unfold pooled_df. rewrite add_comm. reflexivity. Qed.

Lemma pooled_denom_swap (a b : list float) :
  pooled_denom b a = pooled_denom a b.
Proof.
  unfold pooled_denom. rewrite pooled_df_swap.
  rewrite (add_comm (_ * var 1 b)).
  rewrite (add_comm (1 / float_of_nat (List.length b))).
  reflexivity.
Qed.

Lemma pooled_std_swap (a b : list float) : pooled_std b a = pooled_std a b.
Proof. unfold pooled_std. rewrite add_comm. reflexivity. Qed.

Lemma zero_div (y : float) :
  Prim2SF (0 / y) = S754_nan \/ exists s, Prim2SF (0 / y) = S754_zero s.
Proof.
  rewrite div_spec. apply SFdiv_zero_l.
Qed.

(** The first scenario of the specification: waiting times of 10, 12, 11,
    9, 13 minutes against 20, 22, 19, 21, 23. *)
Example scenario_clear_difference (two_sided : float -> float -> float) :
  let r := analyze_metric two_sided [10; 12; 11; 9; 13] [20; 22; 19; 21; 23] in
  group_a_mean r = 11 /\ group_b_mean r = 21 /\ difference r = (- (10))
  /\ (effect_size r <? (- (7))) = true
  /\ ttest_ind_stat [10; 12; 11; 9; 13] [20; 22; 19; 21; 23] true
     = (8, (- (10))).
Proof.
  cbv zeta.
  destruct (analyze_metric_means two_sided
              [10; 12; 11; 9; 13] [20; 22; 19; 21; 23]) as [-> ->].
  rewrite analyze_metric_difference, analyze_metric_effect_size.
  repeat split; vm_compute; reflexivity.
Qed.

(** *** C5: symmetry *)

(** C5.  Running the analysis on (B, A) instead of (A, B), with a p-value
    function that satisfies scipy's contract: [difference] and [effect_size]
    are the negations of those of (A, B) (as numbers: [+0] and [-0] are one
    number; the negation of NaN is NaN), while [p_value] and [significant]
    are the same. *)
Theorem C5_swap_negates_difference_and_effect
  (two_sided : float -> float -> float) (law : StudentLaw two_sided)
  (a b : list float) :
  float_negation (difference (analyze_metric two_sided b a))
                 (difference (analyze_metric two_sided a b))
  /\ float_negation (effect_size (analyze_metric two_sided b a))
                    (effect_size (analyze_metric two_sided a b))
  /\ p_value (analyze_metric two_sided b a)
     = p_value (analyze_metric two_sided a b)
  /\ significant (analyze_metric two_sided b a)
     = significant (analyze_metric two_sided a b).
Proof.
  assert (Hp : p_value (analyze_metric two_sided b a)
               = p_value (analyze_metric two_sided a b)).
  { rewrite !analyze_metric_p_value, !ttest_ind_p_value.
    destruct a as [|x a], b as [|y b]; try reflexivity.
    rewrite pooled_df_swap, pooled_denom_swap.
    destruct (sub_swap (mean (x :: a)) (mean (y :: b))) as [E|[E1 E2]].
    - rewrite E, div_opp_l. apply two_sided_even.
    - rewrite E1, E2. reflexivity. }
  rewrite !analyze_metric_significant, Hp.
  rewrite !analyze_metric_difference, !analyze_metric_effect_size.
  rewrite pooled_std_swap.
  destruct (sub_swap (mean a) (mean b)) as [E|[E1 E2]].
  - rewrite E, div_opp_l.
    repeat split; auto using float_negation_opp.
  - rewrite E1, E2. repeat split.
    + left. reflexivity.
    + apply float_negation_zero_or_nan, zero_div.
Qed.

Lemma C5_swap_witness :
  float_negation
    (difference (analyze_metric student_two_sided [7; 7; 7] [1; 3; 5]))
    (difference (analyze_metric student_two_sided [1; 3; 5] [7; 7; 7]))
  /\ float_negation
       (effect_size (analyze_metric student_two_sided [7; 7; 7] [1; 3; 5]))
       (effect_size (analyze_metric student_two_sided [1; 3; 5] [7; 7; 7]))
  /\ p_value (analyze_metric student_two_sided [7; 7; 7] [1; 3; 5])
     = p_value (analyze_metric student_two_sided [1; 3; 5] [7; 7; 7])
  /\ significant (analyze_metric student_two_sided [7; 7; 7] [1; 3; 5])
     = significant (analyze_metric student_two_sided [1; 3; 5] [7; 7; 7]).
Proof.
  exact (C5_swap_negates_difference_and_effect
           student_two_sided student_two_sided_law [1; 3; 5] [7; 7; 7]).
Defined.

(** *** Samples of fewer than two observations *)











(** *** C1: the p-value and the significance flag *)




(** Whatever the p-value function, as long as it satisfies the contract:
    at that input the [p_value] is NaN. *)
Lemma equal_constant_samples_p_value
  (two_sided : float -> float -> float) (law : StudentLaw two_sided) :
  p_value (analyze_metric two_sided [1; 1] [1; 1]) = nan.
Proof.
  rewrite analyze_metric_p_value, ttest_ind_p_value.
  replace ((mean [1; 1] - mean [1; 1]) / pooled_denom [1; 1] [1; 1])
    with nan by reflexivity.
  apply two_sided_nan.
Qed.

(** *** C4: the effect size *)


(** *** C6: degenerate samples *)







(** *** C2: which t-test *)

(** C2 (evidence).  The [p_value] of the result is that of [ttest_ind] with
    [equal_var] true, the pooled test.  For the samples [1, 3, 5] and
    [7, 7, 7] the pooled test has 4 degrees of freedom and Welch's has 2;
    both have a closed form: the result's [p_value] is below 0.05 and
    [significant] is true, while the p-value of Welch's test on the same
    samples is above 0.05. *)
Theorem C2_pooled_test_not_welch :
  (forall (two_sided : float -> float -> float) (a b : list float),
      p_value (analyze_metric two_sided a b)
      = snd (ttest_ind two_sided a b true))
  /\ fst (ttest_ind_stat [1; 3; 5] [7; 7; 7] true) = 4
  /\ fst (ttest_ind_stat [1; 3; 5] [7; 7; 7] false) = 2
  /\ significant (analyze_metric student_two_sided [1; 3; 5] [7; 7; 7]) = true
  /\ (snd (ttest_ind student_two_sided [1; 3; 5] [7; 7; 7] false) <? 0.05)
     = false.
Proof.
  split; [exact analyze_metric_p_value|].
  repeat split; vm_compute; reflexivity.
Qed.

(** *** C7: determinism and statelessness *)




End EngineProofs.

(** ** JavaScript values and [async] functions *)

Module Js.
Local Open Scope string_scope.

(** A JavaScript value, as far as JSON and the service's literals go. *)
Inductive Value : Type :=
  | Undefined
  | Null
  | Bool (b : bool)
  | Num (x : float)
  | Str (s : string)
  | Arr (items : list Value)
  | Obj (fields : list (string * Value)).

(** A natural number as a JavaScript number. *)
Definition float_of_N (n : N) : float := of_uint63 (Uint63.of_Z (Z.of_N n)).

(** A number in a template literal; the service prints small naturals only. *)
Definition show_N (n : N) : string :=
  DecimalString.NilEmpty.string_of_uint (N.to_uint n).

(** [ToBoolean]: what [if (v)], [!v] and [v && ...] test. *)
Definition truthy (v : Value) : bool :=
  match v with
  | Undefined | Null => false
  | Bool b => b
  | Num x => negb ((x =? 0)%float || is_nan x)
  | Str s => negb (String.eqb s "")
  | Arr _ | Obj _ => true
  end.

(** [a !== b].  Arrays and objects are compared by identity; the values
    compared here come from two different responses, each parsed from its
    own JSON text, so they are never the same object. *)
Definition strict_neq (a b : Value) : bool :=
  match a, b with
  | Undefined, Undefined | Null, Null => false
  | Bool x, Bool y => negb (Bool.eqb x y)
  | Num x, Num y => negb (x =? y)%float
  | Str x, Str y => negb (String.eqb x y)
  | _, _ => true
  end.

Fixpoint lookup (k : string) (fields : list (string * Value)) : Value :=
  match fields with
  | [] => Undefined
  | (k', v) :: rest => if String.eqb k k' then v else lookup k rest
  end.

(** [v.k] for a key that no primitive and no array has: [None] stands for
    the [TypeError] that reading a property of [null] or [undefined]
    throws. *)
Definition get_prop (v : Value) (k : string) : option Value :=
  match v with
  | Undefined | Null => None
  | Obj fields => Some (lookup k fields)
  | _ => Some Undefined
  end.

(** A promise once settled. *)
Inductive Settled (A : Type) : Type :=
  | Resolved (a : A)
  | Rejected (error : Value).
Arguments Resolved {A} a.
Arguments Rejected {A} error.

(** The three axios instances of the service. *)
Inductive Api : Type := ApiInstance | RealTimeApi | DashboardApi.

(** An axios response; the service reads its [data] only. *)
Record Response : Type := { data : Value }.

(** What lies outside the module: how the [n]-th HTTP request of a run
    settles, the [n]-th number [Math.random()] returns, the [n]-th reading
    of [Date.now()], and [toISOString] (total on the times the service
    formats, which are [Date.now()] minus at most half an hour). *)
Record Env : Type := {
  http : nat -> Api -> string -> Settled Response;
  random : nat -> float;
  date_now : nat -> float;
  toISOString : float -> string
}.

(** What a call can change: the module-level [lastUpdateTimestamp], the
    console, and how much of the outside has been consumed. *)
Record World : Type := {
  lastUpdateTimestamp : Value;
  console : list (string * Value);
  requests : nat;
  draws : nat;
  clock_reads : nat
}.

(** [let lastUpdateTimestamp = null;] and nothing done yet. *)
Definition initial_world : World :=
  {| lastUpdateTimestamp := Null; console := [];
     requests := 0; draws := 0; clock_reads := 0 |}.

(** The body of an [async] function: from a world to the settlement of the
    promise it returns and the world it leaves.  An [await] of a rejected
    promise throws, and a [throw] that nothing catches rejects the
    promise.  Every function of the service awaits once, its request, and
    reads and writes the module's variable after that, in one turn of the
    event loop: calls take effect one after the other, in the order in which
    their requests settle. *)
Definition M (A : Type) : Type := World -> Settled A * World.

Definition ret {A : Type} (a : A) : M A := fun w => (Resolved a, w).

Definition throw {A : Type} (error : Value) : M A :=
  fun w => (Rejected error, w).

Definition bind {A B : Type} (m : M A) (k : A -> M B) : M B :=
  fun w =>
    match m w with
    | (Resolved a, w') => k a w'
    | (Rejected error, w') => (Rejected error, w')
    end.

(** [try { body } catch (error) { handler }]. *)
Definition try_catch {A : Type} (body : M A) (handler : Value -> M A) : M A :=
  fun w =>
    match body w with
    | (Resolved a, w') => (Resolved a, w')
    | (Rejected error, w') => handler error w'
    end.

Notation "x <- m ;; k" := (bind m (fun x => k))
  (at level 61, m at next level, right associativity).
Notation "m ;;; k" := (bind m (fun _ => k))
  (at level 61, right associativity).

Fixpoint mapM {A B : Type} (f : A -> M B) (xs : list A) : M (list B) :=
  match xs with
  | [] => ret []
  | x :: rest => y <- f x ;; ys <- mapM f rest ;; ret (y :: ys)
  end.

Definition read_prop (v : Value) (k : string) : M Value :=
  match get_prop v k with
  | Some x => ret x
  | None => throw (Str "TypeError")
  end.

Definition console_error (message : string) (error : Value) : M unit :=
  fun w =>
    (Resolved tt,
     {| lastUpdateTimestamp := lastUpdateTimestamp w;
        console := console w ++ [(message, error)];
        requests := requests w; draws := draws w;
        clock_reads := clock_reads w |}).

Definition get_lastUpdateTimestamp : M Value :=
  fun w => (Resolved (lastUpdateTimestamp w), w).

Definition set_lastUpdateTimestamp (v : Value) : M unit :=
  fun w =>
    (Resolved tt,
     {| lastUpdateTimestamp := v; console := console w;
        requests := requests w; draws := draws w;
        clock_reads := clock_reads w |}).

Section Outside.
Variable env : Env.

(** [await instance.get(url)]. *)
Definition axios_get (api : Api) (url : string) : M Response :=
  fun w =>
    (http env (requests w) api url,
     {| lastUpdateTimestamp := lastUpdateTimestamp w; console := console w;
        requests := S (requests w); draws := draws w;
        clock_reads := clock_reads w |}).

Definition math_random : M float :=
  fun w =>
    (Resolved (random env (draws w)),
     {| lastUpdateTimestamp := lastUpdateTimestamp w; console := console w;
        requests := requests w; draws := S (draws w);
        clock_reads := clock_reads w |}).

Definition Date_now : M float :=
  fun w =>
    (Resolved (date_now env (clock_reads w)),
     {| lastUpdateTimestamp := lastUpdateTimestamp w; console := console w;
        requests := requests w; draws := draws w;
        clock_reads := S (clock_reads w) |}).

End Outside.

End Js.

(** ** [apiService.js] *)

Module ApiService.
Import Js.
Local Open Scope string_scope.

(** [const USE_MOCK_DATA = true;].  The functions below take the flag as an
    argument, so that the branch behind it is covered as well. *)
Definition USE_MOCK_DATA : bool := true.

(** The literal [getABTestingResults] returns when mock data is on. *)
Definition mockABTestingResults : Value :=
  Obj [("variants",
        Arr [Obj [("name", Str "SMS Reminders");
                  ("sample_size", Num 1250%float);
                  ("show_up_rate", Num 0.85%float);
                  ("no_show_rate", Num 0.15%float);
                  ("p_value", Num 0.032%float);
                  ("result", Str "Winner")];
             Obj [("name", Str "Email Reminders");
                  ("sample_size", Num 1250%float);
                  ("show_up_rate", Num 0.78%float);
                  ("no_show_rate", Num 0.22%float);
                  ("p_value", Num 0.032%float);
                  ("result", Str "Control")]]);
       ("chart_data",
        Arr [Obj [("variant", Str "SMS Reminders");
                  ("show_up_rate", Num 0.85%float)];
             Obj [("variant", Str "Email Reminders");
                  ("show_up_rate", Num 0.78%float)]])].

(** [mockData.abTestingData]. *)
Definition mockABTestingData : Value :=
  Obj [("groupA", Obj [("satisfaction", Num 4.3%float);
                       ("waitTime", Num 16.2%float)]);
       ("groupB", Obj [("satisfaction", Num 4.5%float);
                       ("waitTime", Num 14.8%float)]);
       ("tTestResults",
        Obj [("pValue", Num 0.032%float);
             ("significant", Bool true);
             ("recommendation",
              Str ("Group B's approach shows statistically significant "
                   ++ "improvement in patient satisfaction and reduced wait "
                   ++ "times. We recommend implementing this approach across "
                   ++ "all departments."))])].

Section Service.
Variable env : Env.

Definition getABTestingResults (use_mock : bool) : M Value :=
  if use_mock then ret mockABTestingResults
  else
    try_catch
      (response <- axios_get env DashboardApi "/ab-testing/results" ;;
       ret (data response))
      (fun error =>
         console_error "Error fetching A/B testing results:" error ;;;
         ret Null).

(** One element of the mock list of [getPredictedAppointments]; the
    conditional draws a second random number only when the first is at most
    0.7. *)
Definition mockPredictedAppointment (i : nat) : M Value :=
  p <- math_random env ;;
  r1 <- math_random env ;;
  risk <- (if (0.7 <? r1)%float then ret "High"
           else r2 <- math_random env ;;
                ret (if (0.4 <? r2)%float then "Medium" else "Low")) ;;
  ret (Obj [("id", Num (float_of_N (1000 + N.of_nat i)));
            ("patient_name", Str ("Patient " ++ show_N (7000 + N.of_nat i)));
            ("appointment_time",
             Str ("2023-06-" ++ show_N (15 + N.of_nat i) ++ " 10:00"));
            ("no_show_probability", Num p);
            ("risk_level", Str risk)]).

Definition getPredictedAppointments (use_mock : bool) : M Value :=
  if use_mock then
    items <- mapM mockPredictedAppointment (seq 0 10) ;; ret (Arr items)
  else
    try_catch
      (response <- axios_get env DashboardApi "/appointments/predicted" ;;
       ret (data response))
      (fun error =>
         console_error "Error fetching predicted appointments:" error ;;;
         ret (Arr [])).

(** One element of the mock list of [getRecentAlerts]. *)
Definition mockRecentAlert (i : nat) : M Value :=
  now <- Date_now env ;;
  let created := (now - float_of_N (N.of_nat i) * 15 * 60000)%float in
  ret (Obj [("id", Num (float_of_N (2000 + N.of_nat i)));
            ("patient_name", Str ("Patient " ++ show_N (8000 + N.of_nat i)));
            ("appointment_time",
             Str ("2023-06-" ++ show_N (15 + N.of_nat i) ++ " 14:30"));
            ("risk_level", Str "High");
            ("created_at", Str (toISOString env created))]).

Definition getRecentAlerts (use_mock : bool) : M Value :=
  if use_mock then
    items <- mapM mockRecentAlert (seq 0 3) ;; ret (Arr items)
  else
    try_catch
      (response <- axios_get env DashboardApi "/alerts/recent" ;;
       ret (data response))
      (fun error =>
         console_error "Error fetching recent alerts:" error ;;;
         ret (Arr [])).

(** The real-time endpoints. *)
Definition getLastUpdated : M Value :=
  try_catch
    (response <- axios_get env RealTimeApi "/last_updated" ;;
     timestamp <- read_prop (data response) "timestamp" ;;
     set_lastUpdateTimestamp timestamp ;;;
     ret (data response))
    (fun error =>
       console_error "Error fetching last updated timestamp:" error ;;;
       ret (Obj [("timestamp", Null); ("formatted", Str "Unknown")])).

Definition checkForUpdates : M bool :=
  try_catch
    (response <- axios_get env RealTimeApi "/last_updated" ;;
     newTimestamp <- read_prop (data response) "timestamp" ;;
     last <- get_lastUpdateTimestamp ;;
     if truthy last && strict_neq newTimestamp last then
       set_lastUpdateTimestamp newTimestamp ;;;
       ret true
     else
       (if negb (truthy last) then set_lastUpdateTimestamp newTimestamp
        else ret tt) ;;;
       ret false)
    (fun error =>
       console_error "Error checking for updates:" error ;;;
       ret false).

Definition fetchAppointments : M Value :=
  try_catch
    (response <- axios_get env RealTimeApi "/appointments" ;;
     ret (data response))
    (fun error =>
       console_error "Error fetching appointments:" error ;;;
       ret (Arr [])).

Definition fetchFeedback : M Value :=
  try_catch
    (response <- axios_get env RealTimeApi "/feedback" ;;
     ret (data response))
    (fun error =>
       console_error "Error fetching feedback:" error ;;;
       ret (Arr [])).

Definition fetchService : M Value :=
  try_catch
    (response <- axios_get env RealTimeApi "/service" ;;
     ret (data response))
    (fun error =>
       console_error "Error fetching service data:" error ;;;
       ret (Arr [])).

Definition fetchStaff : M Value :=
  try_catch
    (response <- axios_get env RealTimeApi "/staff" ;;
     ret (data response))
    (fun error =>
       console_error "Error fetching staff data:" error ;;;
       ret (Arr [])).

(** Two endpoints of the older part of the service, which has no [try]: a
    failed request rejects the promise. *)
Definition getABTestingData (use_mock : bool) : M Value :=
  if use_mock then ret mockABTestingData
  else
    response <- axios_get env ApiInstance "/abtesting" ;;
    ret (data response).

Definition getKPIData (use_mock : bool) : M Value :=
  if use_mock then
    ret (Obj [("totalAppointments", Num 12458%float);
              ("avgSatisfaction", Num 4.2%float);
              ("avgWaitTime", Num 18.5%float)])
  else
    response <- axios_get env ApiInstance "/overview/kpi" ;;
    ret (data response).

End Service.

End ApiService.

(** ** Properties of the API service *)

Module ApiServiceProofs.
Import Js ApiService.
Local Open Scope string_scope.

(** *** C8: the fetch functions never reject *)

(** The promise an [async] body returns is never rejected. *)
Definition never_rejects {A : Type} (m : M A) : Prop :=
  forall w : World, exists (a : A) (w' : World), m w = (Resolved a, w').

(** The awaited request failed. *)
Definition rejected {A : Type} (o : Settled A) : Prop :=
  exists error, o = Rejected error.

(** The shape the six functions share behind the mock flag. *)
Definition guarded_get (env : Env) (api : Api) (url message : string)
  (fallback : Value) : M Value :=
  try_catch
    (response <- axios_get env api url ;; ret (data response))
    (fun error => console_error message error ;;; ret fallback).

Lemma guarded_get_resolved (env : Env) (api : Api) (url message : string)
  (fallback : Value) (w : World) (r : Response) :
  http env (requests w) api url = Resolved r ->
  fst (guarded_get env api url message fallback w) = Resolved (data r).
Proof.
  intros H. unfold guarded_get, try_catch, bind, axios_get. rewrite H.
  reflexivity.
Qed.

Lemma guarded_get_rejected (env : Env) (api : Api) (url message : string)
  (fallback : Value) (w : World) (error : Value) :
  http env (requests w) api url = Rejected error ->
  fst (guarded_get env api url message fallback w) = Resolved fallback.
Proof.
  intros H. unfold guarded_get, try_catch, bind, axios_get. rewrite H.
  reflexivity.
Qed.

Lemma guarded_get_never_rejects (env : Env) (api : Api)
  (url message : string) (fallback : Value) :
  never_rejects (guarded_get env api url message fallback).
Proof.
  intros w. unfold guarded_get, try_catch, bind, axios_get, console_error, ret.
  destruct (http env (requests w) api url) as [r|error]; cbn; eauto.
Qed.

Lemma mapM_never_rejects {A B : Type} (f : A -> M B) (xs : list A) :
  (forall x, never_rejects (f x)) -> never_rejects (mapM f xs).
Proof.
  intros Hf. induction xs as [|x xs IH]; intros w; cbn [mapM].
  - unfold ret. eauto.
  - unfold bind. destruct (Hf x w) as (y & w1 & ->).
    destruct (IH w1) as (ys & w2 & ->). unfold ret. eauto.
Qed.

Lemma mockPredictedAppointment_never_rejects (env : Env) (i : nat) :
  never_rejects (mockPredictedAppointment env i).
Proof.
  intros w. unfold mockPredictedAppointment, bind, math_random, ret. cbn.
  destruct (0.7 <? random env (S (draws w)))%float; cbn; eauto.
Qed.

Lemma mockRecentAlert_never_rejects (env : Env) (i : nat) :
  never_rejects (mockRecentAlert env i).
Proof.
  intros w. unfold mockRecentAlert, bind, Date_now, ret. cbn. eauto.
Qed.

Lemma mock_list_never_rejects (f : nat -> M Value) (n : nat) :
  (forall i, never_rejects (f i)) ->
  never_rejects (items <- mapM f (seq 0 n) ;; ret (Arr items)).
Proof.
  intros Hf w. unfold bind.
  destruct (mapM_never_rejects f (seq 0 n) Hf w) as (ys & w1 & ->).
  unfold ret. eauto.
Qed.

(** C8.  Each of [getRecentAlerts], [getPredictedAppointments],
    [fetchAppointments], [fetchFeedback], [fetchService] and [fetchStaff]
    returns a promise that is never rejected, with the mock flag on or off
    and however the HTTP request settles; and when the request it makes is
    rejected, it resolves with the empty array. *)
Theorem C8_fetch_functions_never_reject (env : Env) :
  (forall use_mock, never_rejects (getRecentAlerts env use_mock))
  /\ (forall use_mock, never_rejects (getPredictedAppointments env use_mock))
  /\ never_rejects (fetchAppointments env)
  /\ never_rejects (fetchFeedback env)
  /\ never_rejects (fetchService env)
  /\ never_rejects (fetchStaff env)
  /\ (forall w : World,
        (rejected (http env (requests w) DashboardApi "/alerts/recent") ->
         fst (getRecentAlerts env false w) = Resolved (Arr []))
        /\ (rejected
              (http env (requests w) DashboardApi "/appointments/predicted") ->
            fst (getPredictedAppointments env false w) = Resolved (Arr []))
        /\ (rejected (http env (requests w) RealTimeApi "/appointments") ->
            fst (fetchAppointments env w) = Resolved (Arr []))
        /\ (rejected (http env (requests w) RealTimeApi "/feedback") ->
            fst (fetchFeedback env w) = Resolved (Arr []))
        /\ (rejected (http env (requests w) RealTimeApi "/service") ->
            fst (fetchService env w) = Resolved (Arr []))
        /\ (rejected (http env (requests w) RealTimeApi "/staff") ->
            fst (fetchStaff env w) = Resolved (Arr []))).
Proof.
  split; [|split; [|split; [|split; [|split; [|split]]]]].
  - intros [|]; [|apply guarded_get_never_rejects].
    apply mock_list_never_rejects, mockRecentAlert_never_rejects.
  - intros [|]; [|apply guarded_get_never_rejects].
    apply mock_list_never_rejects, mockPredictedAppointment_never_rejects.
  - apply guarded_get_never_rejects.
  - apply guarded_get_never_rejects.
  - apply guarded_get_never_rejects.
  - apply guarded_get_never_rejects.
  - intros w. repeat split; intros [error H];
      apply (guarded_get_rejected _ _ _ _ _ _ _ H).
Qed.

(** By contrast, the endpoints without a [try] pass the failure on. *)
Lemma getKPIData_rejects (env : Env) (w : World) (error : Value) :
  http env (requests w) ApiInstance "/overview/kpi" = Rejected error ->
  fst (getKPIData env false w) = Rejected error.
Proof.
  intros H. unfold getKPIData, bind, axios_get. rewrite H. reflexivity.
Qed.

(** *** C9: the mock A/B results *)

(** Reading the fields the page reads. *)
Definition variants (results : Value) : list Value :=
  match get_prop results "variants" with
  | Some (Arr items) => items
  | _ => []
  end.

Definition num_field (k : string) (v : Value) : float :=
  match get_prop v k with
  | Some (Num x) => x
  | _ => nan
  end.

Definition str_field (k : string) (v : Value) : option string :=
  match get_prop v k with
  | Some (Str s) => Some s
  | _ => None
  end.

(** [v.result === 'Winner'], the test of the page's [find]. *)
Definition is_winner (v : Value) : bool :=
  match str_field "result" v with
  | Some s => String.eqb s "Winner"
  | None => false
  end.

(** [show_up_rate + no_show_rate === 1]. *)
Definition rates_sum_to_one (v : Value) : bool :=
  (num_field "show_up_rate" v + num_field "no_show_rate" v =? 1)%float.

(** [abData.variants.find(v => v.result === 'Winner')?.name]. *)
Definition displayed_winner (results : Value) : option string :=
  match find is_winner (variants results) with
  | Some v => str_field "name" v
  | None => None
  end.

(** C9.  With mock data on (as [USE_MOCK_DATA] is), [getABTestingResults]
    resolves, in every world, to the literal with exactly two variants; in
    each, [show_up_rate + no_show_rate] is 1; both carry the same
    [p_value]; exactly one has the result "Winner", and every other variant
    has a strictly lower [show_up_rate] than it; it is the one the page
    displays. *)
Theorem C9_mock_ab_results (env : Env) (w : World) :
  USE_MOCK_DATA = true
  /\ getABTestingResults env true w = (Resolved mockABTestingResults, w)
  /\ List.length (variants mockABTestingResults) = 2%nat
  /\ forallb rates_sum_to_one (variants mockABTestingResults) = true
  /\ (forall v1 v2,
        In v1 (variants mockABTestingResults) ->
        In v2 (variants mockABTestingResults) ->
        (num_field "p_value" v1 =? num_field "p_value" v2)%float = true)
  /\ (exists winner,
        filter is_winner (variants mockABTestingResults) = [winner]
        /\ str_field "name" winner = Some "SMS Reminders"
        /\ forall v,
             In v (variants mockABTestingResults) ->
             is_winner v = false ->
             (num_field "show_up_rate" v
              <? num_field "show_up_rate" winner)%float = true)
  /\ displayed_winner mockABTestingResults = Some "SMS Reminders".
Proof.
  split; [reflexivity|]. split; [reflexivity|]. split; [reflexivity|].
  split; [vm_compute; reflexivity|]. split.
  - intros v1 v2 H1 H2. cbn in H1, H2.
    destruct H1 as [<-|[<-|[]]], H2 as [<-|[<-|[]]]; vm_compute; reflexivity.
  - split; [|reflexivity].
    eexists. split; [reflexivity|]. split; [reflexivity|].
    intros v Hv Hw. cbn in Hv. destruct Hv as [<-|[<-|[]]].
    + discriminate Hw.
    + vm_compute. reflexivity.
Qed.

(** The mock t-test result shown by the older A/B page agrees with the
    rule of the analysis: its p-value is a probability and its flag is
    [pValue < 0.05]. *)
Lemma mock_tTestResults_consistent :
  match get_prop mockABTestingData "tTestResults" with
  | Some t =>
      get_prop t "significant"
      = Some (Bool (num_field "pValue" t <? 0.05)%float)
      /\ StudentT.in_unit (num_field "pValue" t) = true
  | None => False
  end.
Proof. split; vm_compute; reflexivity. Qed.

(** *** C10: polling for updates *)

(** The timestamp a call fetches: the request has to succeed and
    [response.data.timestamp] has to evaluate ([data] is neither [null] nor
    [undefined]); otherwise the [catch] block runs. *)
Definition fetched_timestamp (o : Settled Response) : Settled Value :=
  match o with
  | Rejected error => Rejected error
  | Resolved response =>
      match get_prop (data response) "timestamp" with
      | Some timestamp => Resolved timestamp
      | None => Rejected (Str "TypeError")
      end
  end.

(** What the [k] requests from the [n]-th on fetch from [/last_updated]. *)
Definition timestamps (env : Env) (n k : nat) : list (Settled Value) :=
  map (fun i => fetched_timestamp (http env i RealTimeApi "/last_updated"))
      (seq n k).

(** [k] calls of [checkForUpdates] one after the other: what they return. *)
Fixpoint run_checks (env : Env) (k : nat) : M (list bool) :=
  match k with
  | O => ret []
  | S k' =>
      r <- checkForUpdates env ;;
      rs <- run_checks env k' ;;
      ret (r :: rs)
  end.

(** The behaviour in the words of the claim: no timestamp is stored before
    the first successful call, which stores the one it fetches and returns
    false; a later successful call returns true exactly when the timestamp
    it fetches differs from the stored one, and stores it then; a failed
    call returns false and stores nothing. *)
Definition claimed_check (stored : option Value) (o : Settled Value)
  : bool * option Value :=
  match o with
  | Rejected _ => (false, stored)
  | Resolved timestamp =>
      match stored with
      | None => (false, Some timestamp)
      | Some old =>
          if strict_neq timestamp old then (true, Some timestamp)
          else (false, stored)
      end
  end.

Fixpoint claimed_checks (stored : option Value) (os : list (Settled Value))
  : list bool * option Value :=
  match os with
  | [] => ([], stored)
  | o :: rest =>
      let '(r, stored1) := claimed_check stored o in
      let '(rs, stored2) := claimed_checks stored1 rest in
      (r :: rs, stored2)
  end.

(** The module's variable holds what the claim calls the stored timestamp. *)
Definition holds (w : World) (stored : option Value) : Prop :=
  match stored with
  | None => lastUpdateTimestamp w = Null
  | Some v => lastUpdateTimestamp w = v /\ truthy v = true
  end.

(** Every timestamp fetched is truthy. *)
Definition all_truthy (os : list (Settled Value)) : Prop :=
  forall v, In (Resolved v) os -> truthy v = true.

(** One call, by cases on what it fetches and on the variable. *)
Lemma checkForUpdates_step (env : Env) (w : World) :
  match fetched_timestamp (http env (requests w) RealTimeApi "/last_updated")
  with
  | Rejected _ =>
      exists w', checkForUpdates env w = (Resolved false, w')
                 /\ lastUpdateTimestamp w' = lastUpdateTimestamp w
                 /\ requests w' = S (requests w)
  | Resolved timestamp =>
      exists w',
        checkForUpdates env w
        = (Resolved (truthy (lastUpdateTimestamp w)
                     && strict_neq timestamp (lastUpdateTimestamp w)), w')
        /\ lastUpdateTimestamp w'
           = (if truthy (lastUpdateTimestamp w)
                 && negb (strict_neq timestamp (lastUpdateTimestamp w))
              then lastUpdateTimestamp w else timestamp)
        /\ requests w' = S (requests w)
  end.
Proof.
  unfold checkForUpdates, fetched_timestamp, try_catch, bind, axios_get,
    read_prop, get_lastUpdateTimestamp.
  destruct (http env (requests w) RealTimeApi "/last_updated") as [r|error];
    cbn.
  - destruct (get_prop (data r) "timestamp") as [timestamp|]; cbn.
    + destruct (truthy (lastUpdateTimestamp w)); cbn;
        [destruct (strict_neq timestamp (lastUpdateTimestamp w)); cbn|];
        eexists; repeat split.
    + eexists; repeat split.
  - eexists; repeat split.
Qed.

Lemma timestamps_cons (env : Env) (n k : nat) :
  timestamps env n (S k)
  = fetched_timestamp (http env n RealTimeApi "/last_updated")
    :: timestamps env (S n) k.
Proof. reflexivity. Qed.

(** C10 (as the code has it).  From a state in which the variable holds
    what the claim calls the stored timestamp (nothing, as when the module
    is loaded, or a truthy timestamp), and as long as every timestamp fetched
    is truthy, [k] calls of [checkForUpdates] return what the claim says,
    call by call, and leave the variable holding the stored timestamp of the
    claim: false on the first successful call, then true exactly when the
    fetched timestamp differs from the stored one, and false with nothing
    stored on a failed call. *)
Theorem C10_checkForUpdates_on_truthy_timestamps
  (env : Env) (k : nat) (w : World) (stored : option Value) :
  holds w stored ->
  all_truthy (timestamps env (requests w) k) ->
  exists w',
    run_checks env k w
    = (Resolved (fst (claimed_checks stored (timestamps env (requests w) k))),
       w')
    /\ holds w' (snd (claimed_checks stored (timestamps env (requests w) k))).
Proof.
  revert w stored. induction k as [|k IH]; intros w stored Hw Ht.
  - exists w. split; [reflexivity|exact Hw].
  - rewrite timestamps_cons in *. cbn [run_checks claimed_checks].
    pose proof (checkForUpdates_step env w) as Hstep.
    assert (Hrest : forall w1 stored1 r,
               checkForUpdates env w = (Resolved r, w1) ->
               requests w1 = S (requests w) ->
               holds w1 stored1 ->
               exists w',
                 (r0 <- checkForUpdates env ;;
                  rs <- run_checks env k ;; ret (r0 :: rs)) w
                 = (Resolved
                      (r :: fst (claimed_checks stored1
                                   (timestamps env (S (requests w)) k))), w')
                 /\ holds w' (snd (claimed_checks stored1
                                     (timestamps env (S (requests w)) k)))).
    { intros w1 stored1 r Hc Hr Hh.
      destruct (IH w1 stored1 Hh) as (w' & Hrun & Hh').
      - rewrite Hr. intros v Hv. apply Ht. right. exact Hv.
      - exists w'. unfold bind at 1. rewrite Hc. unfold bind at 1.
        rewrite Hrun. rewrite Hr in *. split; [reflexivity|exact Hh']. }
    destruct (fetched_timestamp
                (http env (requests w) RealTimeApi "/last_updated"))
      as [timestamp|error] eqn:Ef.
    + destruct Hstep as (w1 & Hc & Hl & Hr).
      assert (Htr : truthy timestamp = true) by (apply Ht; left; reflexivity).
      destruct stored as [old|]; cbn [claimed_check].
      * destruct Hw as [Hold Htold]. rewrite Hold, Htold in *.
        cbn [andb] in *.
        destruct (strict_neq timestamp old) eqn:En; cbn [negb] in Hl.
        -- destruct (claimed_checks (Some timestamp) _) as [rs st2] eqn:Ec.
           destruct (Hrest w1 (Some timestamp) true Hc Hr) as (w' & H1 & H2);
             [split; assumption|].
           rewrite Ec in H1, H2. exists w'. split; assumption.
        -- destruct (claimed_checks (Some old) _) as [rs st2] eqn:Ec.
           destruct (Hrest w1 (Some old) false Hc Hr) as (w' & H1 & H2);
             [split; assumption|].
           rewrite Ec in H1, H2. exists w'. split; assumption.
      * cbn [holds] in Hw. rewrite Hw in *. cbn in Hc, Hl.
        destruct (claimed_checks (Some timestamp) _) as [rs st2] eqn:Ec.
        destruct (Hrest w1 (Some timestamp) false Hc Hr) as (w' & H1 & H2);
          [split; assumption|].
        rewrite Ec in H1, H2. exists w'. split; assumption.
    + destruct Hstep as (w1 & Hc & Hl & Hr). cbn [claimed_check].
      destruct (claimed_checks stored _) as [rs st2] eqn:Ec.
      destruct (Hrest w1 stored false Hc Hr) as (w' & H1 & H2).
      * destruct stored as [old|]; cbn [holds] in *; rewrite Hl; exact Hw.
      * rewrite Ec in H1, H2. exists w'. split; assumption.
Qed.

(** A server whose timestamp is "t1" twice, then fails, then is "t2". *)
Definition env_t1_t1_error_t2 : Env :=
  {| http := fun n _ _ =>
       match n with
       | 0%nat | 1%nat =>
           Resolved {| data := Obj [("timestamp", Str "t1")] |}
       | 2%nat => Rejected (Str "Network Error")
       | _ => Resolved {| data := Obj [("timestamp", Str "t2")] |}
       end;
     random := fun _ => 0%float;
     date_now := fun _ => 0%float;
     toISOString := fun _ => "" |}.

Lemma C10_checkForUpdates_witness :
  exists w',
    run_checks env_t1_t1_error_t2 4 initial_world
    = (Resolved [false; false; false; true], w')
    /\ holds w' (Some (Str "t2")).
Proof.
  apply (C10_checkForUpdates_on_truthy_timestamps
           env_t1_t1_error_t2 4 initial_world None).
  - reflexivity.
  - intros v Hv. cbn in Hv.
    destruct Hv as [Hv|[Hv|[Hv|[Hv|[]]]]]; inversion Hv; reflexivity.
Defined.

(** A server whose timestamp is the number 0 at first and 5 afterwards. *)
Definition env_zero_then_five : Env :=
  {| http := fun n _ _ =>
       match n with
       | 0%nat => Resolved {| data := Obj [("timestamp", Num 0%float)] |}
       | _ => Resolved {| data := Obj [("timestamp", Num 5%float)] |}
       end;
     random := fun _ => 0%float;
     date_now := fun _ => 0%float;
     toISOString := fun _ => "" |}.

(** C10, refuted as stated: the first call fetches and stores the timestamp
    0, the second fetches 5, which differs from the stored one, and returns
    false all the same, because the stored 0 is falsy. *)
Lemma C10_falsy_timestamp_hides_update :
  ~ (forall (env : Env) (k : nat),
        fst (run_checks env k initial_world)
        = Resolved (fst (claimed_checks None (timestamps env 0 k)))).
Proof.
  intros H. specialize (H env_zero_then_five 2%nat).
  vm_compute in H. discriminate H.
Qed.

(** A server whose timestamp is "t1" at first and "t2" afterwards. *)
Definition env_t1_then_t2 : Env :=
  {| http := fun n _ _ =>
       match n with
       | 0%nat => Resolved {| data := Obj [("timestamp", Str "t1")] |}
       | _ => Resolved {| data := Obj [("timestamp", Str "t2")] |}
       end;
     random := fun _ => 0%float;
     date_now := fun _ => 0%float;
     toISOString := fun _ => "" |}.

(** The variable is shared with [getLastUpdated], which the refresh button
    calls before it starts polling: after it, the first successful call of
    [checkForUpdates] already compares, and returns true when the timestamp
    has changed. *)
Lemma first_check_after_getLastUpdated :
  fst ((getLastUpdated env_t1_then_t2 ;;;
        checkForUpdates env_t1_then_t2) initial_world)
  = Resolved true.
Proof. vm_compute. reflexivity. Qed.

End ApiServiceProofs.

(** ** [apiService.js]: the mock data and the remaining endpoints *)

Module ApiEndpoints.
Import Js ApiService.
Local Open Scope string_scope.

(** [mockData.streamAppointments]. *)
Definition mockStreamAppointments : Value :=
  Arr [Obj [("id", Num 1%float);
            ("appointment_id", Num 123456%float);
            ("patient_id", Num 7890%float);
            ("department", Str "Cardiology");
            ("appointment_date", Str "2023-06-15");
            ("scheduled_time", Str "09:30");
            ("arrival_time", Str "09:20");
            ("group_name", Str "A");
            ("wait_time_minutes", Num 15%float);
            ("was_seen", Num 1%float);
            ("satisfaction_score", Num 8%float);
            ("comments",
             Str "Doctor was very thorough and explained everything well.");
            ("timestamp", Str "2023-06-15 09:45:00")];
       Obj [("id", Num 2%float);
            ("appointment_id", Num 123457%float);
            ("patient_id", Num 7891%float);
            ("department", Str "Neurology");
            ("appointment_date", Str "2023-06-15");
            ("scheduled_time", Str "10:00");
            ("arrival_time", Str "09:50");
            ("group_name", Str "B");
            ("wait_time_minutes", Num 25%float);
            ("was_seen", Num 1%float);
            ("satisfaction_score", Num 7%float);
            ("comments", Str "Wait time was longer than expected.");
            ("timestamp", Str "2023-06-15 10:25:00")];
       Obj [("id", Num 3%float);
            ("appointment_id", Num 123458%float);
            ("patient_id", Num 7892%float);
            ("department", Str "Pediatrics");
            ("appointment_date", Str "2023-06-15");
            ("scheduled_time", Str "10:30");
            ("arrival_time", Str "10:20");
            ("group_name", Str "A");
            ("wait_time_minutes", Num 10%float);
            ("was_seen", Num 1%float);
            ("satisfaction_score", Num 9%float);
            ("comments", Str "Great experience overall.");
            ("timestamp", Str "2023-06-15 10:40:00")]].

(** [mockData.kpiData]. *)
Definition mockKpiData : Value :=
  Obj [("totalAppointments", Num 12458%float);
       ("avgSatisfaction", Num 4.2%float);
       ("avgWaitTime", Num 18.5%float)].

(** [mockData.appointmentsByDate]. *)
Definition mockAppointmentsByDate : Value :=
  Arr [Obj [("date", Str "2023-01-01"); ("count", Num 120%float)];
       Obj [("date", Str "2023-01-02"); ("count", Num 145%float)];
       Obj [("date", Str "2023-01-03"); ("count", Num 132%float)];
       Obj [("date", Str "2023-01-04"); ("count", Num 167%float)];
       Obj [("date", Str "2023-01-05"); ("count", Num 178%float)];
       Obj [("date", Str "2023-01-06"); ("count", Num 156%float)];
       Obj [("date", Str "2023-01-07"); ("count", Num 98%float)];
       Obj [("date", Str "2023-01-08"); ("count", Num 110%float)];
       Obj [("date", Str "2023-01-09"); ("count", Num 145%float)];
       Obj [("date", Str "2023-01-10"); ("count", Num 149%float)]].

(** [mockData.departmentData]. *)
Definition mockNoShowRates : Value :=
  Arr [Obj [("department", Str "Cardiology"); ("rate", Num 0.12%float)];
       Obj [("department", Str "Dermatology"); ("rate", Num 0.08%float)];
       Obj [("department", Str "Neurology"); ("rate", Num 0.15%float)];
       Obj [("department", Str "Orthopedics"); ("rate", Num 0.10%float)];
       Obj [("department", Str "Pediatrics"); ("rate", Num 0.05%float)];
       Obj [("department", Str "Psychiatry"); ("rate", Num 0.18%float)];
       Obj [("department", Str "Radiology"); ("rate", Num 0.07%float)]].

Definition mockPatientLoadVsStaffing : Value :=
  Arr [Obj [("department", Str "Cardiology");
            ("patientLoad", Num 85%float); ("staffing", Num 75%float)];
       Obj [("department", Str "Dermatology");
            ("patientLoad", Num 65%float); ("staffing", Num 70%float)];
       Obj [("department", Str "Neurology");
            ("patientLoad", Num 90%float); ("staffing", Num 65%float)];
       Obj [("department", Str "Orthopedics");
            ("patientLoad", Num 75%float); ("staffing", Num 80%float)];
       Obj [("department", Str "Pediatrics");
            ("patientLoad", Num 60%float); ("staffing", Num 85%float)];
       Obj [("department", Str "Psychiatry");
            ("patientLoad", Num 70%float); ("staffing", Num 60%float)];
       Obj [("department", Str "Radiology");
            ("patientLoad", Num 50%float); ("staffing", Num 75%float)]].

Definition mockEquipmentDowntime : Value :=
  Arr [Obj [("department", Str "Cardiology"); ("downtime", Num 0.05%float)];
       Obj [("department", Str "Dermatology"); ("downtime", Num 0.02%float)];
       Obj [("department", Str "Neurology"); ("downtime", Num 0.08%float)];
       Obj [("department", Str "Orthopedics"); ("downtime", Num 0.04%float)];
       Obj [("department", Str "Pediatrics"); ("downtime", Num 0.01%float)];
       Obj [("department", Str "Psychiatry"); ("downtime", Num 0.00%float)];
       Obj [("department", Str "Radiology"); ("downtime", Num 0.12%float)]].

(** [mockData.operationalData]. *)
Definition mockWaitTimeVsSatisfaction : Value :=
  Arr [Obj [("waitTime", Num 5%float); ("satisfaction", Num 4.8%float)];
       Obj [("waitTime", Num 10%float); ("satisfaction", Num 4.5%float)];
       Obj [("waitTime", Num 15%float); ("satisfaction", Num 4.2%float)];
       Obj [("waitTime", Num 20%float); ("satisfaction", Num 3.8%float)];
       Obj [("waitTime", Num 25%float); ("satisfaction", Num 3.5%float)];
       Obj [("waitTime", Num 30%float); ("satisfaction", Num 3.2%float)];
       Obj [("waitTime", Num 35%float); ("satisfaction", Num 2.9%float)];
       Obj [("waitTime", Num 40%float); ("satisfaction", Num 2.7%float)];
       Obj [("waitTime", Num 45%float); ("satisfaction", Num 2.5%float)];
       Obj [("waitTime", Num 50%float); ("satisfaction", Num 2.3%float)]].

Definition mockCorrelationMatrix : Value :=
  Arr [Obj [("factor1", Str "Wait Time"); ("factor2", Str "Satisfaction");
            ("correlation", Num (-0.85)%float)];
       Obj [("factor1", Str "Staff Ratio"); ("factor2", Str "Satisfaction");
            ("correlation", Num 0.72%float)];
       Obj [("factor1", Str "Equipment Downtime");
            ("factor2", Str "Satisfaction");
            ("correlation", Num (-0.68)%float)];
       Obj [("factor1", Str "Wait Time"); ("factor2", Str "No-Show Rate");
            ("correlation", Num 0.58%float)];
       Obj [("factor1", Str "Staff Ratio"); ("factor2", Str "Wait Time");
            ("correlation", Num (-0.65)%float)];
       Obj [("factor1", Str "Equipment Downtime"); ("factor2", Str "Wait Time");
            ("correlation", Num 0.51%float)]].

(** [mockData.recommendationsData]; the template literal, line breaks
    included. *)
Definition mockRecommendationsData : Value :=
  Obj [("insights", Str "
# Key Recommendations

## 1. Reduce Wait Times
Our analysis shows a strong negative correlation (-0.85) between wait times and patient satisfaction. 
For every 10 minutes reduction in wait time, satisfaction scores increase by approximately 0.5 points.

**Action Items:**
- Implement staggered appointment scheduling
- Add self-check-in kiosks to reduce front desk bottlenecks
- Consider extending hours for high-demand departments

## 2. Optimize Staffing
Departments with higher staff-to-patient ratios show significantly better satisfaction scores and lower wait times.

**Action Items:**
- Increase staffing in Neurology and Psychiatry departments
- Implement floating staff model during peak hours
- Review staff allocation based on daily patient volume patterns

## 3. Equipment Maintenance
Radiology has the highest equipment downtime (12%), impacting both wait times and department efficiency.

**Action Items:**
- Schedule preventative maintenance during off-hours
- Establish backup protocols for critical equipment
- Consider equipment upgrades for frequently failing units

## 4. No-Show Reduction Strategy
Psychiatry has the highest no-show rate (18%), representing significant lost revenue and inefficient resource utilization.

**Action Items:**
- Implement SMS appointment reminders 48 and 24 hours before appointments
- Develop a waitlist system to fill cancelled slots
- Consider overbooking strategy based on historical no-show patterns
    ")].

(** The mock literals of [getDashboardSummary] and [getModelStatus]. *)
Definition mockDashboardSummary : Value :=
  Obj [("total_appointments", Num 12458%float);
       ("show_up_rate", Num 0.82%float);
       ("no_show_rate", Num 0.18%float);
       ("high_risk_appointments", Num 1872%float);
       ("ab_test_winner", Str "SMS Reminders")].

Definition mockModelStatus : Value :=
  Obj [("version", Str "1.2.3");
       ("last_retrain_date", Str "2023-06-08");
       ("f1_score", Num 0.87%float);
       ("data_size", Num 15420%float)].

Definition doctors : list string :=
  ["Dr. Smith"; "Dr. Johnson"; "Dr. Williams"; "Dr. Brown"; "Dr. Jones"].

(** [array[i]] on an array of strings: [undefined] out of range. *)
Definition string_at (xs : list string) (i : nat) : Value :=
  match nth_error xs i with
  | Some s => Str s
  | None => Undefined
  end.

Section Endpoints.
Variable env : Env.

(** [ToString] as a template literal applies it to the argument of
    [getAppointmentsByDate] and of [getStreamAppointments]. *)
Variable to_string : Value -> string.

(** [await instance.post(url, body)]: the request settles as the outside
    says, whatever is sent. *)
Definition axios_post (api : Api) (url : string) (body : Value) : M Response :=
  axios_get env api url.

Definition getDashboardSummary (use_mock : bool) : M Value :=
  if use_mock then ret mockDashboardSummary
  else
    try_catch
      (response <- axios_get env DashboardApi "/dashboard/summary" ;;
       ret (data response))
      (fun error =>
         console_error "Error fetching dashboard summary:" error ;;;
         ret Null).

(** One element of the mock list of [getRescheduleRecommendations]. *)
Definition mockRescheduleRecommendation (i : nat) : M Value :=
  r <- math_random env ;;
  ret (Obj [("id", Num (float_of_N (3000 + N.of_nat i)));
            ("original_appointment",
             Str ("Patient " ++ show_N (9000 + N.of_nat i)));
            ("original_time",
             Str ("2023-06-" ++ show_N (15 + N.of_nat i) ++ " 11:00"));
            ("suggested_time",
             Str ("2023-06-" ++ show_N (18 + N.of_nat i) ++ " 14:00"));
            ("doctor", string_at doctors (i mod 5));
            ("confidence_score", Num (0.7 + r * 0.25)%float)]).

Definition getRescheduleRecommendations (use_mock : bool) : M Value :=
  if use_mock then
    items <- mapM mockRescheduleRecommendation (seq 0 5) ;; ret (Arr items)
  else
    try_catch
      (response <- axios_get env DashboardApi "/recommendations/reschedule" ;;
       ret (data response))
      (fun error =>
         console_error "Error fetching reschedule recommendations:" error ;;;
         ret (Arr [])).

Definition logFeedback (use_mock : bool) (feedback : Value) : M Value :=
  if use_mock then
    ret (Obj [("status", Str "success");
              ("message", Str "Feedback logged successfully")])
  else
    try_catch
      (response <- axios_post DashboardApi "/feedback/log" feedback ;;
       ret (data response))
      (fun error =>
         console_error "Error logging feedback:" error ;;;
         ret (Obj [("status", Str "error");
                   ("message", Str "Failed to log feedback")])).

Definition getModelStatus (use_mock : bool) : M Value :=
  if use_mock then ret mockModelStatus
  else
    try_catch
      (response <- axios_get env DashboardApi "/model/status" ;;
       ret (data response))
      (fun error =>
         console_error "Error fetching model status:" error ;;;
         ret Null).

(** The original endpoints: no [try].  A parameter with a default takes it
    when the argument is missing or [undefined]. *)
Definition getAppointmentsByDate (use_mock : bool) (days : option Value)
  : M Value :=
  let days := match days with
              | None | Some Undefined => Num 90%float
              | Some d => d
              end in
  if use_mock then ret mockAppointmentsByDate
  else
    response <- axios_get env ApiInstance
                  ("/overview/appointments?days=" ++ to_string days) ;;
    ret (data response).

Definition getDepartmentNoShowRates (use_mock : bool) : M Value :=
  if use_mock then ret mockNoShowRates
  else
    response <- axios_get env ApiInstance "/departments/noshow" ;;
    ret (data response).

Definition getPatientLoadVsStaffing (use_mock : bool) : M Value :=
  if use_mock then ret mockPatientLoadVsStaffing
  else
    response <- axios_get env ApiInstance "/departments/staffing" ;;
    ret (data response).

Definition getEquipmentDowntime (use_mock : bool) : M Value :=
  if use_mock then ret mockEquipmentDowntime
  else
    response <- axios_get env ApiInstance "/departments/equipment" ;;
    ret (data response).

Definition getWaitTimeVsSatisfaction (use_mock : bool) : M Value :=
  if use_mock then ret mockWaitTimeVsSatisfaction
  else
    response <- axios_get env ApiInstance "/operational/satisfaction" ;;
    ret (data response).

Definition getCorrelationMatrix (use_mock : bool) : M Value :=
  if use_mock then ret mockCorrelationMatrix
  else
    response <- axios_get env ApiInstance "/operational/correlations" ;;
    ret (data response).

Definition getRecommendations (use_mock : bool) : M Value :=
  if use_mock then ret mockRecommendationsData
  else
    response <- axios_get env ApiInstance "/recommendations" ;;
    ret (data response).

Definition getStreamAppointments (use_mock : bool) (limit : option Value)
  : M Value :=
  let limit := match limit with
               | None | Some Undefined => Num 10%float
               | Some l => l
               end in
  if use_mock then ret mockStreamAppointments
  else
    response <- axios_get env ApiInstance
                  ("/stream/appointments?limit=" ++ to_string limit) ;;
    ret (data response).

End Endpoints.

End ApiEndpoints.

(** ** Properties of the endpoints *)

Module ApiEndpointsProofs.
Import Js ApiService ApiEndpoints ApiServiceProofs.
Local Open Scope string_scope.

(** *** Calls that go to the network *)

(** A call that makes one request behind a [try]: it resolves with the
    response's data, or logs the failure once and resolves with the
    fallback; it never touches [lastUpdateTimestamp]. *)
Definition guarded_call (env : Env) (api : Api) (url message : string)
  (fallback : Value) (m : M Value) : Prop :=
  forall w : World, exists w' : World,
    requests w' = S (requests w)
    /\ lastUpdateTimestamp w' = lastUpdateTimestamp w
    /\ match http env (requests w) api url with
       | Resolved r => m w = (Resolved (data r), w') /\ console w' = console w
       | Rejected error =>
           m w = (Resolved fallback, w')
           /\ console w' = (console w ++ [(message, error)])%list
       end.

(** A call that makes one request without a [try]: the promise settles as
    the request does, and nothing is logged. *)
Definition plain_call (env : Env) (api : Api) (url : string) (m : M Value)
  : Prop :=
  forall w : World, exists w' : World,
    requests w' = S (requests w)
    /\ lastUpdateTimestamp w' = lastUpdateTimestamp w
    /\ console w' = console w
    /\ m w = (match http env (requests w) api url with
              | Resolved r => Resolved (data r)
              | Rejected error => Rejected error
              end, w').

(** A call that stays inside the module: it resolves, makes no request,
    logs nothing and leaves [lastUpdateTimestamp] alone. *)
Definition offline {A : Type} (m : M A) : Prop :=
  forall w : World, exists (a : A) (w' : World),
    m w = (Resolved a, w')
    /\ requests w' = requests w
    /\ lastUpdateTimestamp w' = lastUpdateTimestamp w
    /\ console w' = console w.

Lemma guarded_get_call (env : Env) (api : Api) (url message : string)
  (fallback : Value) :
  guarded_call env api url message fallback
    (guarded_get env api url message fallback).
Proof.
  intros w.
  unfold guarded_get, try_catch, bind, axios_get, console_error, ret.
  destruct (http env (requests w) api url) as [r|error]; cbn;
    (eexists; split; [|split]; [| |split; reflexivity]; reflexivity).
Qed.

Lemma plain_get_call (env : Env) (api : Api) (url : string) :
  plain_call env api url
    (response <- axios_get env api url ;; ret (data response)).
Proof.
  intros w. unfold bind, axios_get, ret.
  destruct (http env (requests w) api url) as [r|error]; cbn;
    (eexists; split; [|split; [|split]]; [| | |reflexivity]; reflexivity).
Qed.

Lemma ret_offline {A : Type} (a : A) : offline (ret a).
Proof. intros w. exists a, w. repeat split. Qed.

Lemma mapM_offline {A B : Type} (f : A -> M B) (xs : list A) :
  (forall x, offline (f x)) -> offline (mapM f xs).
Proof.
  intros Hf. induction xs as [|x xs IH]; intros w; cbn [mapM].
  - apply ret_offline.
  - unfold bind. destruct (Hf x w) as (y & w1 & -> & Hr1 & Hl1 & Hc1).
    destruct (IH w1) as (ys & w2 & -> & Hr2 & Hl2 & Hc2).
    exists (y :: ys), w2. unfold ret. repeat split; congruence.
Qed.

Lemma mock_list_offline (f : nat -> M Value) (n : nat) :
  (forall i, offline (f i)) ->
  offline (items <- mapM f (seq 0 n) ;; ret (Arr items)).
Proof.
  intros Hf w. unfold bind.
  destruct (mapM_offline f (seq 0 n) Hf w) as (ys & w1 & -> & H).
  exists (Arr ys), w1. unfold ret. split; [reflexivity|exact H].
Qed.

Lemma mockPredictedAppointment_offline (env : Env) (i : nat) :
  offline (mockPredictedAppointment env i).
Proof.
  intros w. unfold mockPredictedAppointment, bind, math_random, ret. cbn.
  destruct (0.7 <? random env (S (draws w)))%float; cbn;
    eexists; eexists; repeat split.
Qed.

Lemma mockRecentAlert_offline (env : Env) (i : nat) :
  offline (mockRecentAlert env i).
Proof.
  intros w. unfold mockRecentAlert, bind, Date_now, ret. cbn.
  eexists; eexists; repeat split.
Qed.

Lemma mockRescheduleRecommendation_offline (env : Env) (i : nat) :
  offline (mockRescheduleRecommendation env i).
Proof.
  intros w. unfold mockRescheduleRecommendation, bind, math_random, ret. cbn.
  eexists; eexists; repeat split.
Qed.

(** With the mock flag off, each of the eleven endpoints that wrap their
    request in a [try] makes exactly one request and resolves: with the
    response's data, or, when the request fails, with its fallback after
    one [console.error]; none of them writes [lastUpdateTimestamp].  The
    fallback is [null] for [getDashboardSummary], [getABTestingResults] and
    [getModelStatus], an object with status "error" for [logFeedback], and
    the empty array for the others. *)
Theorem endpoints_behind_try (env : Env) (feedback : Value) :
  guarded_call env DashboardApi "/dashboard/summary"
    "Error fetching dashboard summary:" Null (getDashboardSummary env false)
  /\ guarded_call env DashboardApi "/ab-testing/results"
       "Error fetching A/B testing results:" Null
       (getABTestingResults env false)
  /\ guarded_call env DashboardApi "/model/status"
       "Error fetching model status:" Null (getModelStatus env false)
  /\ guarded_call env DashboardApi "/feedback/log" "Error logging feedback:"
       (Obj [("status", Str "error"); ("message", Str "Failed to log feedback")])
       (logFeedback env false feedback)
  /\ guarded_call env DashboardApi "/recommendations/reschedule"
       "Error fetching reschedule recommendations:" (Arr [])
       (getRescheduleRecommendations env false)
  /\ guarded_call env DashboardApi "/appointments/predicted"
       "Error fetching predicted appointments:" (Arr [])
       (getPredictedAppointments env false)
  /\ guarded_call env DashboardApi "/alerts/recent"
       "Error fetching recent alerts:" (Arr []) (getRecentAlerts env false)
  /\ guarded_call env RealTimeApi "/appointments"
       "Error fetching appointments:" (Arr []) (fetchAppointments env)
  /\ guarded_call env RealTimeApi "/feedback"
       "Error fetching feedback:" (Arr []) (fetchFeedback env)
  /\ guarded_call env RealTimeApi "/service"
       "Error fetching service data:" (Arr []) (fetchService env)
  /\ guarded_call env RealTimeApi "/staff"
       "Error fetching staff data:" (Arr []) (fetchStaff env).
Proof.
  repeat split; apply guarded_get_call.
Qed.

(** With the mock flag off, each of the ten original endpoints makes
    exactly one request and its promise settles as the request does: it is
    rejected with the request's error when the request fails.  Nothing is
    logged, and [lastUpdateTimestamp] is not written.  The two endpoints
    with a parameter put it in the query string, 90 days and a limit of 10
    by default. *)
Theorem original_endpoints_pass_failures_on
  (env : Env) (to_string : Value -> string) (days limit : option Value) :
  plain_call env ApiInstance "/overview/kpi" (getKPIData env false)
  /\ plain_call env ApiInstance "/abtesting" (getABTestingData env false)
  /\ plain_call env ApiInstance "/departments/noshow"
       (getDepartmentNoShowRates env false)
  /\ plain_call env ApiInstance "/departments/staffing"
       (getPatientLoadVsStaffing env false)
  /\ plain_call env ApiInstance "/departments/equipment"
       (getEquipmentDowntime env false)
  /\ plain_call env ApiInstance "/operational/satisfaction"
       (getWaitTimeVsSatisfaction env false)
  /\ plain_call env ApiInstance "/operational/correlations"
       (getCorrelationMatrix env false)
  /\ plain_call env ApiInstance "/recommendations"
       (getRecommendations env false)
  /\ plain_call env ApiInstance
       ("/overview/appointments?days="
        ++ to_string match days with
                     | None | Some Undefined => Num 90%float
                     | Some d => d
                     end)
       (getAppointmentsByDate env to_string false days)
  /\ plain_call env ApiInstance
       ("/stream/appointments?limit="
        ++ to_string match limit with
                     | None | Some Undefined => Num 10%float
                     | Some l => l
                     end)
       (getStreamAppointments env to_string false limit).
Proof.
  repeat split; apply plain_get_call.
Qed.

(** With the mock flag on (as [USE_MOCK_DATA] is), each of the seventeen
    endpoints behind the flag resolves without making a request, without
    logging and without writing [lastUpdateTimestamp], whatever the random
    numbers and the clock are. *)
Theorem mock_mode_stays_offline
  (env : Env) (to_string : Value -> string) (feedback : Value)
  (days limit : option Value) :
  offline (getDashboardSummary env true)
  /\ offline (getABTestingResults env true)
  /\ offline (getPredictedAppointments env true)
  /\ offline (getRecentAlerts env true)
  /\ offline (getRescheduleRecommendations env true)
  /\ offline (logFeedback env true feedback)
  /\ offline (getModelStatus env true)
  /\ offline (getKPIData env true)
  /\ offline (getAppointmentsByDate env to_string true days)
  /\ offline (getABTestingData env true)
  /\ offline (getDepartmentNoShowRates env true)
  /\ offline (getPatientLoadVsStaffing env true)
  /\ offline (getEquipmentDowntime env true)
  /\ offline (getWaitTimeVsSatisfaction env true)
  /\ offline (getCorrelationMatrix env true)
  /\ offline (getRecommendations env true)
  /\ offline (getStreamAppointments env to_string true limit).
Proof.
  repeat split;
    first [ apply ret_offline
          | apply mock_list_offline;
            first [ apply mockPredictedAppointment_offline
                  | apply mockRecentAlert_offline
                  | apply mockRescheduleRecommendation_offline ] ].
Qed.

(** *** The timestamp of the last update *)

(** What [getLastUpdated] resolves with when its [try] block fails. *)
Definition unknown_update : Value :=
  Obj [("timestamp", Null); ("formatted", Str "Unknown")].

(** One call of [getLastUpdated], by cases on the request and on whether
    [response.data.timestamp] can be read. *)
Lemma getLastUpdated_step (env : Env) (w : World) :
  exists w',
    requests w' = S (requests w)
    /\ match http env (requests w) RealTimeApi "/last_updated" with
       | Resolved r =>
           match get_prop (data r) "timestamp" with
           | Some timestamp =>
               getLastUpdated env w = (Resolved (data r), w')
               /\ lastUpdateTimestamp w' = timestamp
               /\ console w' = console w
           | None =>
               getLastUpdated env w = (Resolved unknown_update, w')
               /\ lastUpdateTimestamp w' = lastUpdateTimestamp w
               /\ console w'
                  = (console w
                     ++ [("Error fetching last updated timestamp:",
                          Str "TypeError")])%list
           end
       | Rejected error =>
           getLastUpdated env w = (Resolved unknown_update, w')
           /\ lastUpdateTimestamp w' = lastUpdateTimestamp w
           /\ console w'
              = (console w
                 ++ [("Error fetching last updated timestamp:", error)])%list
       end.
Proof.
  unfold getLastUpdated, try_catch, bind, axios_get, read_prop,
    set_lastUpdateTimestamp, console_error, ret, throw.
  destruct (http env (requests w) RealTimeApi "/last_updated") as [r|error];
    cbn.
  - destruct (get_prop (data r) "timestamp") as [timestamp|]; cbn;
      (eexists; split; [|split; [|split]]; [|reflexivity| |]; reflexivity).
  - eexists; split; [|split; [|split]]; [|reflexivity| |]; reflexivity.
Qed.

(** [getLastUpdated] never rejects, and what it resolves with is never
    [null] or [undefined]: reading a property of it, as the refresh button
    reads [data.formatted], does not throw.  When the request fails or the
    data has no readable timestamp it resolves with
    [{ timestamp: null, formatted: 'Unknown' }] and leaves
    [lastUpdateTimestamp] as it was. *)
Theorem getLastUpdated_result_is_readable (env : Env) (w : World) :
  exists (v : Value) (w' : World),
    getLastUpdated env w = (Resolved v, w')
    /\ (forall k, get_prop v k <> None)
    /\ (fetched_timestamp (http env (requests w) RealTimeApi "/last_updated")
        = Resolved (lastUpdateTimestamp w')
        \/ (v = unknown_update
            /\ lastUpdateTimestamp w' = lastUpdateTimestamp w)).
Proof.
  destruct (getLastUpdated_step env w) as (w' & _ & H).
  unfold fetched_timestamp.
  destruct (http env (requests w) RealTimeApi "/last_updated") as [r|error].
  - destruct (get_prop (data r) "timestamp") as [timestamp|] eqn:Et.
    + destruct H as (-> & Hl & _). exists (data r), w'.
      split; [reflexivity|]. split.
      * intros k. destruct (data r); cbn in *; congruence.
      * left. congruence.
    + destruct H as (-> & Hl & _). exists unknown_update, w'.
      repeat split; [discriminate|auto].
  - destruct H as (-> & Hl & _). exists unknown_update, w'.
    repeat split; [discriminate|auto].
Qed.

(** The variable is shared by the two functions.  When [getLastUpdated]
    fetches the timestamp [t0] and the next call, of [checkForUpdates],
    fetches [t1], that call, although the first of its kind, compares: it
    returns [true] exactly when [t0] is truthy and [t1 !== t0]. *)
Theorem checkForUpdates_after_getLastUpdated
  (env : Env) (w : World) (t0 t1 : Value) :
  fetched_timestamp (http env (requests w) RealTimeApi "/last_updated")
  = Resolved t0 ->
  fetched_timestamp (http env (S (requests w)) RealTimeApi "/last_updated")
  = Resolved t1 ->
  exists w',
    (getLastUpdated env ;;; checkForUpdates env) w
    = (Resolved (truthy t0 && strict_neq t1 t0), w')
    /\ lastUpdateTimestamp w'
       = (if truthy t0 && negb (strict_neq t1 t0) then t0 else t1).
Proof.
  intros H0 H1.
  destruct (getLastUpdated_step env w) as (w1 & Hr & H).
  unfold fetched_timestamp in H0.
  destruct (http env (requests w) RealTimeApi "/last_updated") as [r|error];
    [|discriminate].
  destruct (get_prop (data r) "timestamp") as [timestamp|]; [|discriminate].
  injection H0 as ->. destruct H as (Hg & Hl & _).
  pose proof (checkForUpdates_step env w1) as Hs.
  rewrite Hr, H1, Hl in Hs. destruct Hs as (w2 & Hc & Hl2 & _).
  exists w2. unfold bind. rewrite Hg, Hc. split; [reflexivity|exact Hl2].
Qed.

Lemma checkForUpdates_witness_after_getLastUpdated :
  exists w',
    (getLastUpdated env_t1_then_t2 ;;; checkForUpdates env_t1_then_t2)
      initial_world
    = (Resolved true, w')
    /\ lastUpdateTimestamp w' = Str "t2".
Proof.
  apply (checkForUpdates_after_getLastUpdated
           env_t1_then_t2 initial_world (Str "t1") (Str "t2"));
    reflexivity.
Defined.

(** Polling a server whose timestamp does not change: once the variable
    holds a truthy timestamp, calls of [checkForUpdates] that fetch a
    timestamp equal to it ([!==] is false) all return false and leave the
    variable as it is. *)
Theorem unchanged_timestamp_is_not_reported
  (env : Env) (k : nat) (w : World) :
  truthy (lastUpdateTimestamp w) = true ->
  (forall i, (i < k)%nat ->
     exists t,
       fetched_timestamp
         (http env (requests w + i) RealTimeApi "/last_updated") = Resolved t
       /\ strict_neq t (lastUpdateTimestamp w) = false) ->
  exists w',
    run_checks env k w = (Resolved (repeat false k), w')
    /\ lastUpdateTimestamp w' = lastUpdateTimestamp w.
Proof.
  revert w. induction k as [|k IH]; intros w Ht Hf.
  - exists w. split; reflexivity.
  - destruct (Hf 0%nat) as (t & Hf0 & Hn); [lia|].
    rewrite Nat.add_0_r in Hf0.
    pose proof (checkForUpdates_step env w) as Hs.
    rewrite Hf0, Ht, Hn in Hs. cbn in Hs. destruct Hs as (w1 & Hc & Hl & Hr).
    destruct (IH w1) as (w' & Hrun & Hl').
    + rewrite Hl. exact Ht.
    + intros i Hi. destruct (Hf (S i)) as (t' & Hf' & Hn'); [lia|].
      exists t'. rewrite Hr, Hl. replace (S (requests w) + i)%nat
        with (requests w + S i)%nat by lia. split; assumption.
    + exists w'. cbn [run_checks repeat]. unfold bind at 1. rewrite Hc.
      unfold bind at 1. rewrite Hrun. split; [reflexivity|congruence].
Qed.

(** A server that always answers with the timestamp "t1". *)
Definition env_always_t1 : Env :=
  {| http := fun _ _ _ => Resolved {| data := Obj [("timestamp", Str "t1")] |};
     random := fun _ => 0%float;
     date_now := fun _ => 0%float;
     toISOString := fun _ => "" |}.

Lemma unchanged_timestamp_witness :
  exists w',
    run_checks env_always_t1 3
      (snd (checkForUpdates env_always_t1 initial_world))
    = (Resolved [false; false; false], w')
    /\ lastUpdateTimestamp w' = Str "t1".
Proof.
  apply (unchanged_timestamp_is_not_reported env_always_t1 3
           (snd (checkForUpdates env_always_t1 initial_world))).
  - reflexivity.
  - intros i _. exists (Str "t1"). split; reflexivity.
Defined.

(** *** The generated mock lists *)

Lemma mapM_Forall2 {A B : Type} (f : A -> M B) (P : A -> B -> Prop)
  (lo hi : nat) :
  (forall x w, exists y w',
      f x w = (Resolved y, w') /\ P x y
      /\ (draws w + lo <= draws w' <= draws w + hi)%nat) ->
  forall xs w, exists ys w',
    mapM f xs w = (Resolved ys, w') /\ Forall2 P xs ys
    /\ (draws w + lo * List.length xs <= draws w'
        <= draws w + hi * List.length xs)%nat.
Proof.
  intros Hf xs. induction xs as [|x xs IH]; intros w; cbn [mapM List.length].
  - exists [], w. unfold ret. repeat split; [constructor|lia|lia].
  - unfold bind. destruct (Hf x w) as (y & w1 & -> & Hy & Hd1).
    destruct (IH w1) as (ys & w2 & -> & Hys & Hd2).
    exists (y :: ys), w2. unfold ret.
    repeat split; [constructor; assumption|lia|lia].
Qed.

(** What every element of the mock list of [getPredictedAppointments] looks
    like. *)
Definition predicted_appointment (i : nat) (v : Value) : Prop :=
  get_prop v "id" = Some (Num (float_of_N (1000 + N.of_nat i)))
  /\ (exists p, get_prop v "no_show_probability" = Some (Num p))
  /\ exists risk, get_prop v "risk_level" = Some (Str risk)
                  /\ In risk ["High"; "Medium"; "Low"].

Lemma mockPredictedAppointment_shape (env : Env) (i : nat) (w : World) :
  exists v w',
    mockPredictedAppointment env i w = (Resolved v, w')
    /\ predicted_appointment i v
    /\ (draws w + 2 <= draws w' <= draws w + 3)%nat.
Proof.
  unfold mockPredictedAppointment, bind, math_random, ret. cbn.
  destruct (0.7 <? random env (S (draws w)))%float; cbn.
  - eexists; eexists. split; [reflexivity|]. split; [|cbn; lia].
    unfold predicted_appointment. cbn. repeat split; eauto.
  - destruct (0.4 <? random env (S (S (draws w))))%float;
      (eexists; eexists; split; [reflexivity|]; split; [|cbn; lia];
       unfold predicted_appointment; cbn; repeat split; eauto 6).
Qed.

(** With mock data on, [getPredictedAppointments] resolves, whatever
    [Math.random] returns, with an array of exactly ten objects whose ids
    are 1000 to 1009 in order, each with a numeric [no_show_probability]
    and a [risk_level] that is "High", "Medium" or "Low"; it draws between
    20 and 30 random numbers. *)
Theorem mock_predicted_appointments_shape (env : Env) (w : World) :
  exists items w',
    getPredictedAppointments env true w = (Resolved (Arr items), w')
    /\ List.length items = 10%nat
    /\ Forall2 predicted_appointment (seq 0 10) items
    /\ (draws w + 20 <= draws w' <= draws w + 30)%nat.
Proof.
  destruct (mapM_Forall2 (mockPredictedAppointment env) predicted_appointment
              2 3 (mockPredictedAppointment_shape env) (seq 0 10) w)
    as (items & w' & Hrun & Hall & Hd).
  exists items, w'. unfold getPredictedAppointments, bind. rewrite Hrun.
  split; [reflexivity|]. split.
  - apply Forall2_length in Hall. rewrite <- Hall. reflexivity.
  - split; [exact Hall|]. cbn in Hd. lia.
Qed.

(** [doctors[i % 5]] is always one of the five names: the index never
    leaves the array. *)
Lemma doctor_in_range (i : nat) :
  exists d, string_at doctors (i mod 5) = Str d /\ In d doctors.
Proof.
  unfold string_at.
  destruct (nth_error doctors (i mod 5)) as [d|] eqn:E.
  - exists d. split; [reflexivity|]. eapply nth_error_In; eassumption.
  - apply nth_error_None in E.
    pose proof (Nat.mod_upper_bound i 5). cbn [List.length doctors] in E. lia.
Qed.

(** What every element of the mock list of [getRescheduleRecommendations]
    looks like. *)
Definition reschedule_recommendation (env : Env) (i : nat) (v : Value)
  : Prop :=
  get_prop v "id" = Some (Num (float_of_N (3000 + N.of_nat i)))
  /\ (exists d, get_prop v "doctor" = Some (Str d) /\ In d doctors)
  /\ exists n, get_prop v "confidence_score"
               = Some (Num (0.7 + random env n * 0.25)%float).

Lemma mockRescheduleRecommendation_shape (env : Env) (i : nat) (w : World) :
  exists v w',
    mockRescheduleRecommendation env i w = (Resolved v, w')
    /\ reschedule_recommendation env i v
    /\ (draws w + 1 <= draws w' <= draws w + 1)%nat.
Proof.
  destruct (doctor_in_range i) as (d & Hd & Hin).
  unfold mockRescheduleRecommendation, bind, math_random, ret.
  rewrite Hd. cbn.
  eexists; eexists. split; [reflexivity|]. split; [|cbn; lia].
  unfold reschedule_recommendation. cbn. repeat split; eauto.
Qed.

(** With mock data on, [getRescheduleRecommendations] resolves, whatever
    [Math.random] returns, with an array of exactly five objects whose ids
    are 3000 to 3004 in order; each has one of the five doctors (never
    [undefined]) and a confidence score of 0.7 plus a quarter of one random
    number; five random numbers are drawn. *)
Theorem mock_reschedule_recommendations_shape (env : Env) (w : World) :
  exists items w',
    getRescheduleRecommendations env true w = (Resolved (Arr items), w')
    /\ List.length items = 5%nat
    /\ Forall2 (reschedule_recommendation env) (seq 0 5) items
    /\ draws w' = (draws w + 5)%nat.
Proof.
  destruct (mapM_Forall2 (mockRescheduleRecommendation env)
              (reschedule_recommendation env) 1 1
              (mockRescheduleRecommendation_shape env) (seq 0 5) w)
    as (items & w' & Hrun & Hall & Hd).
  exists items, w'. unfold getRescheduleRecommendations, bind. rewrite Hrun.
  split; [reflexivity|]. split.
  - apply Forall2_length in Hall. rewrite <- Hall. reflexivity.
  - split; [exact Hall|]. cbn in Hd. lia.
Qed.

End ApiEndpointsProofs.

(** ** Components: handlers over the state of a component *)

Module React.
Import Js.

(** The body of a handler of a component whose state has type [S]: it runs
    like the body of an [async] function and may call the component's state
    setters on the way.  What the setters did before a [throw] stays done. *)
Definition PM (S A : Type) : Type := S -> World -> Settled A * S * World.

Definition pret {S A : Type} (a : A) : PM S A :=
  fun s w => (Resolved a, s, w).

Definition pthrow {S A : Type} (error : Value) : PM S A :=
  fun s w => (Rejected error, s, w).

Definition pbind {S A B : Type} (m : PM S A) (k : A -> PM S B) : PM S B :=
  fun s w =>
    match m s w with
    | (Resolved a, s', w') => k a s' w'
    | (Rejected error, s', w') => (Rejected error, s', w')
    end.

(** [await] of a call that knows nothing of the component. *)
Definition lift {S A : Type} (m : M A) : PM S A :=
  fun s w => let '(r, w') := m w in (r, s, w').

(** A call of a state setter. *)
Definition set_state {S : Type} (f : S -> S) : PM S unit :=
  fun s w => (Resolved tt, f s, w).

(** [try { body } catch (error) { handler }]. *)
Definition ptry_catch {S A : Type} (body : PM S A) (handler : Value -> PM S A)
  : PM S A :=
  fun s w =>
    match body s w with
    | (Resolved a, s', w') => (Resolved a, s', w')
    | (Rejected error, s', w') => handler error s' w'
    end.

(** [try { body } finally { final }]: [final] runs either way; what [body]
    did stands unless [final] throws. *)
Definition ptry_finally {S A : Type} (body : PM S A) (final : PM S unit)
  : PM S A :=
  fun s w =>
    let '(r, s1, w1) := body s w in
    match final s1 w1 with
    | (Resolved _, s2, w2) => (r, s2, w2)
    | (Rejected error, s2, w2) => (Rejected error, s2, w2)
    end.

Notation "x <~ m ;; k" := (pbind m (fun x => k))
  (at level 61, m at next level, right associativity).
Notation "m ;;~ k" := (pbind m (fun _ => k))
  (at level 61, right associativity).

(** [v.k], throwing as JavaScript does on [null] and [undefined]. *)
Definition pread_prop {S : Type} (v : Value) (k : string) : PM S Value :=
  match get_prop v k with
  | Some x => pret x
  | None => pthrow (Str "TypeError")
  end.

(** [console.error(message, error)] from a component. *)
Definition pconsole_error {S : Type} (message : string) (error : Value)
  : PM S unit :=
  lift (console_error message error).

(** The promise of a handler is never rejected. *)
Definition handler_never_rejects {S A : Type} (m : PM S A) : Prop :=
  forall s w, exists a s' w', m s w = (Resolved a, s', w').

End React.

(** ** [RefreshButton.jsx] *)

Module RefreshButton.
Import Js ApiService React.
Local Open Scope string_scope.

(** The three [useState] cells, and the lines written with
    [console.log]. *)
Record State : Type := {
  lastUpdated : Value;
  isRefreshing : bool;
  autoRefresh : bool;
  console_log : list string
}.

(** [useState('Unknown')], [useState(false)], [useState(true)]. *)
Definition initial_state : State :=
  {| lastUpdated := Str "Unknown"; isRefreshing := false;
     autoRefresh := true; console_log := [] |}.

Definition setLastUpdated (v : Value) : PM State unit :=
  set_state (fun s =>
    {| lastUpdated := v; isRefreshing := isRefreshing s;
       autoRefresh := autoRefresh s; console_log := console_log s |}).

Definition setIsRefreshing (b : bool) : PM State unit :=
  set_state (fun s =>
    {| lastUpdated := lastUpdated s; isRefreshing := b;
       autoRefresh := autoRefresh s; console_log := console_log s |}).

Definition log_line (line : string) : PM State unit :=
  set_state (fun s =>
    {| lastUpdated := lastUpdated s; isRefreshing := isRefreshing s;
       autoRefresh := autoRefresh s;
       console_log := console_log s ++ [line] |}).

Section Component.
Variable env : Env.

(** The [onRefresh] property: absent, or a function of the parent whose
    call is awaited.  It may do anything to the world and may throw. *)
Variable onRefresh : option (M Value).

(** [if (onRefresh) { await onRefresh(); }]. *)
Definition call_onRefresh : PM State unit :=
  match onRefresh with
  | Some callback => lift callback ;;~ pret tt
  | None => pret tt
  end.

Definition fetchLastUpdated : PM State unit :=
  data <~ lift (getLastUpdated env) ;;
  formatted <~ pread_prop data "formatted" ;;
  setLastUpdated formatted.

Definition handleRefresh : PM State unit :=
  setIsRefreshing true ;;~
  ptry_finally
    (ptry_catch
       (call_onRefresh ;;~ fetchLastUpdated)
       (fun error => pconsole_error "Error refreshing data:" error))
    (setIsRefreshing false).

(** The polling function; [autoRefresh] is the value the closure holds. *)
Definition checkForUpdates (autoRefresh : bool) : PM State unit :=
  if negb autoRefresh then pret tt
  else
    ptry_catch
      (hasUpdates <~ lift (ApiService.checkForUpdates env) ;;
       if hasUpdates then
         log_line "Data has been updated, refreshing..." ;;~
         call_onRefresh ;;~
         fetchLastUpdated
       else pret tt)
      (fun error => pconsole_error "Error checking for updates:" error).

End Component.

End RefreshButton.

(** ** Properties of the refresh button *)

Module RefreshButtonProofs.
Import Js ApiService React RefreshButton ApiServiceProofs ApiEndpointsProofs.
Local Open Scope string_scope.

(** One run of [fetchLastUpdated]. *)
Lemma fetchLastUpdated_step (env : Env) (s : State) (w : World) :
  exists s' w',
    fetchLastUpdated env s w = (Resolved tt, s', w')
    /\ isRefreshing s' = isRefreshing s
    /\ autoRefresh s' = autoRefresh s
    /\ console_log s' = console_log s
    /\ requests w' = S (requests w)
    /\ (rejected (http env (requests w) RealTimeApi "/last_updated") ->
        lastUpdated s' = Str "Unknown").
Proof.
  destruct (getLastUpdated_step env w) as (w1 & Hr & H).
  unfold fetchLastUpdated, pbind, lift.
  destruct (http env (requests w) RealTimeApi "/last_updated") as [r|error].
  - destruct (get_prop (data r) "timestamp") as [timestamp|] eqn:Et.
    + destruct H as (-> & _ & _).
      assert (Hf : exists f, get_prop (data r) "formatted" = Some f).
      { destruct (data r); cbn in *; try discriminate; eauto. }
      destruct Hf as [f Hf]. unfold pread_prop. rewrite Hf.
      eexists; eexists. split; [reflexivity|]. cbn.
      repeat split; try assumption. intros [e He]. discriminate He.
    + destruct H as (-> & _ & _). cbn.
      eexists; eexists. split; [reflexivity|]. cbn.
      repeat split; assumption.
  - destruct H as (-> & _ & _). cbn.
    eexists; eexists. split; [reflexivity|]. cbn. repeat split; assumption.
Qed.

(** [fetchLastUpdated] never rejects: what [getLastUpdated] resolves with
    always has a readable [formatted].  It makes one request, shows
    "Unknown" when that request fails, and touches neither [isRefreshing]
    nor [autoRefresh]. *)
Theorem fetchLastUpdated_never_rejects (env : Env) (s : State) (w : World) :
  exists s' w',
    fetchLastUpdated env s w = (Resolved tt, s', w')
    /\ isRefreshing s' = isRefreshing s
    /\ autoRefresh s' = autoRefresh s
    /\ requests w' = S (requests w)
    /\ (rejected (http env (requests w) RealTimeApi "/last_updated") ->
        lastUpdated s' = Str "Unknown").
Proof.
  destruct (fetchLastUpdated_step env s w) as (s' & w' & H & H1 & H2 & _ & H3).
  exists s', w'. auto.
Qed.

(** One run of [call_onRefresh]. *)
Lemma call_onRefresh_run (onRefresh : option (M Value)) (s : State)
  (w : World) :
  call_onRefresh onRefresh s w
  = match onRefresh with
    | Some callback =>
        match callback w with
        | (Resolved _, w1) => (Resolved tt, s, w1)
        | (Rejected error, w1) => (Rejected error, s, w1)
        end
    | None => (Resolved tt, s, w)
    end.
Proof.
  unfold call_onRefresh. destruct onRefresh as [callback|]; [|reflexivity].
  unfold pbind, lift. destruct (callback w) as [[v|error] w1]; reflexivity.
Qed.

(** A manual refresh, whatever the [onRefresh] callback does: the promise
    of [handleRefresh] is never rejected and [isRefreshing] is false again
    at the end, so the button is enabled again; [autoRefresh] is not
    touched. *)
Theorem handleRefresh_always_finishes
  (env : Env) (onRefresh : option (M Value)) (s : State) (w : World) :
  exists s' w',
    handleRefresh env onRefresh s w = (Resolved tt, s', w')
    /\ isRefreshing s' = false
    /\ autoRefresh s' = autoRefresh s.
Proof.
  unfold handleRefresh, pbind, setIsRefreshing, set_state, ptry_finally,
    ptry_catch.
  cbn -[fetchLastUpdated call_onRefresh].
  rewrite call_onRefresh_run.
  set (s0 := {| lastUpdated := lastUpdated s; isRefreshing := true;
                autoRefresh := autoRefresh s;
                console_log := console_log s |}).
  assert (Hok : forall w1, exists s' w',
             (let '(r, s1, w0) :=
                match fetchLastUpdated env s0 w1 with
                | (Resolved a, s'0, w'0) => (Resolved a, s'0, w'0)
                | (Rejected error, s'0, w'0) =>
                    pconsole_error "Error refreshing data:" error s'0 w'0
                end in
              (r, {| lastUpdated := lastUpdated s1; isRefreshing := false;
                     autoRefresh := autoRefresh s1;
                     console_log := console_log s1 |}, w0))
             = (Resolved tt, s', w')
             /\ isRefreshing s' = false /\ autoRefresh s' = autoRefresh s).
  { intros w1.
    destruct (fetchLastUpdated_step env s0 w1) as (s1 & w2 & -> & _ & Ha & _).
    eexists; eexists. split; [reflexivity|]. split; [reflexivity|exact Ha]. }
  destruct onRefresh as [callback|]; [|apply Hok].
  destruct (callback w) as [[v|error] w1]; [apply Hok|].
  cbn. eexists; eexists. split; [reflexivity|]. split; reflexivity.
Qed.

(** When the [onRefresh] callback fails, a manual refresh stops there: it
    logs the error once, makes no request of its own and leaves the
    displayed time as it was. *)
Theorem handleRefresh_stops_at_failed_callback
  (env : Env) (callback : M Value) (s : State) (w w1 : World)
  (error : Value) :
  callback w = (Rejected error, w1) ->
  exists s' w',
    handleRefresh env (Some callback) s w = (Resolved tt, s', w')
    /\ lastUpdated s' = lastUpdated s
    /\ requests w' = requests w1
    /\ lastUpdateTimestamp w' = lastUpdateTimestamp w1
    /\ console w' = (console w1 ++ [("Error refreshing data:", error)])%list.
Proof.
  intros Hc.
  unfold handleRefresh, pbind, setIsRefreshing, set_state, ptry_finally,
    ptry_catch.
  cbn -[fetchLastUpdated call_onRefresh].
  rewrite call_onRefresh_run, Hc. cbn.
  eexists; eexists. split; [reflexivity|]. repeat split.
Qed.

Lemma handleRefresh_failed_callback_witness :
  exists s' w',
    handleRefresh env_always_t1 (Some (throw (Str "boom")))
      initial_state initial_world
    = (Resolved tt, s', w')
    /\ lastUpdated s' = lastUpdated initial_state
    /\ requests w' = requests initial_world
    /\ lastUpdateTimestamp w' = lastUpdateTimestamp initial_world
    /\ console w'
       = (console initial_world
          ++ [("Error refreshing data:", Str "boom")])%list.
Proof.
  apply (handleRefresh_stops_at_failed_callback env_always_t1
           (throw (Str "boom")) initial_state initial_world initial_world
           (Str "boom")).
  reflexivity.
Defined.

(** The polling function never rejects, whatever the callback does.  With
    auto-refresh off it does nothing at all: no request, no change of the
    state or of the world.  With auto-refresh on and no update reported it
    only makes the request of [apiService.checkForUpdates]: the callback is
    not called and the state is unchanged. *)
Theorem polling_never_rejects
  (env : Env) (onRefresh : option (M Value)) (s : State) (w : World) :
  (forall auto, exists s' w',
      checkForUpdates env onRefresh auto s w = (Resolved tt, s', w'))
  /\ checkForUpdates env onRefresh false s w = (Resolved tt, s, w)
  /\ (fst (ApiService.checkForUpdates env w) = Resolved false ->
      checkForUpdates env onRefresh true s w
      = (Resolved tt, s, snd (ApiService.checkForUpdates env w))).
Proof.
  assert (Hnr : forall w0, exists b w1,
             ApiService.checkForUpdates env w0 = (Resolved b, w1)).
  { intros w0. pose proof (checkForUpdates_step env w0) as Hs.
    destruct (fetched_timestamp _) in Hs; destruct Hs as (w1 & -> & _);
      eauto. }
  split; [|split].
  - intros [|]; [|eexists; eexists; reflexivity].
    unfold checkForUpdates, ptry_catch, pbind, lift. cbn [negb].
    destruct (Hnr w) as (b & w1 & ->).
    destruct b; [|eexists; eexists; reflexivity].
    unfold log_line, set_state.
    cbn -[fetchLastUpdated call_onRefresh].
    rewrite call_onRefresh_run.
    set (s0 := {| lastUpdated := lastUpdated s;
                  isRefreshing := isRefreshing s;
                  autoRefresh := autoRefresh s;
                  console_log := _ |}).
    assert (Hok : forall w2, exists s' w',
               match fetchLastUpdated env s0 w2 with
               | (Resolved a, s'0, w'0) => (Resolved a, s'0, w'0)
               | (Rejected error, s'0, w'0) =>
                   pconsole_error "Error checking for updates:" error s'0 w'0
               end = (Resolved tt, s', w')).
    { intros w2.
      destruct (fetchLastUpdated_step env s0 w2) as (s1 & w3 & -> & _).
      eexists; eexists; reflexivity. }
    destruct onRefresh as [callback|]; [|apply Hok].
    destruct (callback w1) as [[v|error] w2]; [apply Hok|].
    cbn. eexists; eexists; reflexivity.
  - reflexivity.
  - intros H. unfold checkForUpdates, ptry_catch, pbind, lift. cbn [negb].
    destruct (Hnr w) as (b & w1 & Hc). rewrite Hc in *. cbn in H.
    injection H as ->. reflexivity.
Qed.

End RefreshButtonProofs.

(** ** The pages that call the service *)

Module JsOps.
Import Js.

(** [ToNumber].  On [undefined], [null], booleans and numbers it is fixed;
    on strings, arrays and objects it parses text, which is left to the
    parameter [number_of_text]. *)
Definition to_number (number_of_text : Value -> float) (v : Value) : float :=
  match v with
  | Undefined => nan
  | Null => 0%float
  | Bool b => if b then 1%float else 0%float
  | Num x => x
  | _ => number_of_text v
  end.

(** [a * b]. *)
Definition mul (number_of_text : Value -> float) (a b : Value) : Value :=
  Num (to_number number_of_text a * to_number number_of_text b)%float.

Fixpoint traverse (f : Value -> option Value) (items : list Value)
  : option (list Value) :=
  match items with
  | [] => Some []
  | x :: rest =>
      match f x with
      | Some y =>
          match traverse f rest with
          | Some ys => Some (y :: ys)
          | None => None
          end
      | None => None
      end
  end.

(** [v.map(f)] for a value out of JSON: [None] stands for the [TypeError]
    thrown when [v] is not an array (it has no [map]) or when [f] throws on
    an element. *)
Definition array_map (f : Value -> option Value) (v : Value)
  : option (list Value) :=
  match v with
  | Arr items => traverse f items
  | _ => None
  end.

(** Neither [null] nor [undefined]: a property can be read. *)
Definition readable (v : Value) : bool :=
  match v with
  | Undefined | Null => false
  | _ => true
  end.

End JsOps.

Module ABTestingPage.
Import Js ApiService React JsOps.
Local Open Scope string_scope.

Record State : Type := {
  abData : Value;
  loading : bool;
  error : Value;
  activeView : string
}.

(** [useState(null)], [useState(true)], [useState(null)],
    [useState('comparison')]. *)
Definition initial_state : State :=
  {| abData := Null; loading := true; error := Null;
     activeView := "comparison" |}.

Definition setAbData (v : Value) : PM State unit :=
  set_state (fun s =>
    {| abData := v; loading := loading s; error := error s;
       activeView := activeView s |}).

Definition setLoading (b : bool) : PM State unit :=
  set_state (fun s =>
    {| abData := abData s; loading := b; error := error s;
       activeView := activeView s |}).

Definition setError (v : Value) : PM State unit :=
  set_state (fun s =>
    {| abData := abData s; loading := loading s; error := v;
       activeView := activeView s |}).

(** The effect's [fetchData]. *)
Definition fetchData (env : Env) (use_mock : bool) : PM State unit :=
  ptry_catch
    (setLoading true ;;~
     response <~ lift (getABTestingResults env use_mock) ;;
     setAbData response ;;~
     setLoading false)
    (fun err =>
       pconsole_error "Error fetching A/B testing data:" err ;;~
       setError (Str "Failed to load A/B testing data. Please try again later.") ;;~
       setLoading false).

(** What the component function does before it builds its markup: the
    spinner while loading, the banner when [error] is set, and otherwise
    the two lists prepared for the charts. *)
Inductive Rendered : Type :=
  | Spinner
  | ErrorBanner (message : Value)
  | Threw
  | Prepared (showUpRateData comparisonData : list Value).

Section Render.
Variable number_of_text : Value -> float.

(** [item => ({ name: item.variant, showUpRate: item.show_up_rate * 100 })]. *)
Definition showUpRate_entry (item : Value) : option Value :=
  match get_prop item "variant", get_prop item "show_up_rate" with
  | Some variant, Some rate =>
      Some (Obj [("name", variant);
                 ("showUpRate", mul number_of_text rate (Num 100%float))])
  | _, _ => None
  end.

(** [variant => ({ name, showUp, noShow, sampleSize })]. *)
Definition comparison_entry (variant : Value) : option Value :=
  match get_prop variant "name", get_prop variant "show_up_rate",
        get_prop variant "no_show_rate", get_prop variant "sample_size" with
  | Some name, Some show, Some no_show, Some size =>
      Some (Obj [("name", name);
                 ("showUp", mul number_of_text show (Num 100%float));
                 ("noShow", mul number_of_text no_show (Num 100%float));
                 ("sampleSize", size)])
  | _, _, _, _ => None
  end.

Definition render_prelude (s : State) : Rendered :=
  if loading s then Spinner
  else if truthy (error s) then ErrorBanner (error s)
  else
    match get_prop (abData s) "chart_data" with
    | None => Threw
    | Some chart_data =>
        match array_map showUpRate_entry chart_data with
        | None => Threw
        | Some showUpRateData =>
            match get_prop (abData s) "variants" with
            | None => Threw
            | Some variants =>
                match array_map comparison_entry variants with
                | None => Threw
                | Some comparisonData =>
                    Prepared showUpRateData comparisonData
                end
            end
        end
    end.

End Render.

End ABTestingPage.

(** ** Properties of the A/B testing page *)

Module ABTestingPageProofs.
Import Js ApiService React JsOps ABTestingPage ApiServiceProofs
  ApiEndpointsProofs.
Local Open Scope string_scope.

(** [getABTestingResults] resolves, with [null] when its request fails. *)
Lemma getABTestingResults_resolves (env : Env) (use_mock : bool) (w : World) :
  exists v w',
    getABTestingResults env use_mock w = (Resolved v, w')
    /\ (use_mock = false ->
        rejected (http env (requests w) DashboardApi "/ab-testing/results") ->
        v = Null).
Proof.
  destruct use_mock.
  - exists mockABTestingResults, w. split; [reflexivity|discriminate].
  - destruct (guarded_get_call env DashboardApi "/ab-testing/results"
                "Error fetching A/B testing results:" Null w)
      as (w' & _ & _ & H).
    change (guarded_get env DashboardApi "/ab-testing/results"
              "Error fetching A/B testing results:" Null)
      with (getABTestingResults env false) in H.
    destruct (http env (requests w) DashboardApi "/ab-testing/results")
      as [r|e].
    + destruct H as [-> _]. exists (data r), w'. split; [reflexivity|].
      intros _ [e He]. discriminate He.
    + destruct H as [-> _]. exists Null, w'. split; auto.
Qed.

(** The [catch] block of the page's [fetchData] never runs, because the
    service call never rejects: after [fetchData], with the mock flag on or
    off and however the request settles, [loading] is false and [error] is
    what it was, so the error banner is never switched on; when the request
    fails, [abData] is [null]. *)
Theorem ab_page_fetch_never_sets_error
  (env : Env) (use_mock : bool) (s : State) (w : World) :
  exists s' w',
    fetchData env use_mock s w = (Resolved tt, s', w')
    /\ loading s' = false
    /\ error s' = error s
    /\ activeView s' = activeView s
    /\ (use_mock = false ->
        rejected (http env (requests w) DashboardApi "/ab-testing/results") ->
        abData s' = Null).
Proof.
  destruct (getABTestingResults_resolves env use_mock w) as (v & w' & Hg & Hn).
  unfold fetchData, ptry_catch, pbind, setLoading, setAbData, set_state, lift.
  rewrite Hg. cbn.
  eexists; eexists. split; [reflexivity|]. cbn. repeat split. exact Hn.
Qed.

(** Without [abData] there is nothing to render: once [loading] is false
    and no error is set, a [null] or [undefined] [abData] makes the
    component throw. *)
Lemma render_without_data (number_of_text : Value -> float) (s : State) :
  loading s = false -> truthy (error s) = false ->
  readable (abData s) = false ->
  render_prelude number_of_text s = Threw.
Proof.
  intros Hl He Hd. unfold render_prelude. rewrite Hl, He.
  destruct (abData s); try discriminate; reflexivity.
Qed.

(** With the mock flag off, a page on which no error is set and whose
    request fails ends up neither with the spinner nor with the error
    banner: the component throws when it renders, reading [chart_data] of
    [null]. *)
Theorem ab_page_failed_request_throws
  (env : Env) (number_of_text : Value -> float) (s : State) (w : World) :
  truthy (error s) = false ->
  rejected (http env (requests w) DashboardApi "/ab-testing/results") ->
  render_prelude number_of_text (snd (fst (fetchData env false s w))) = Threw.
Proof.
  intros He Hr.
  destruct (getABTestingResults_resolves env false w) as (v & w' & Hg & Hn).
  rewrite (Hn eq_refl Hr) in Hg.
  unfold fetchData, ptry_catch, pbind, setLoading, setAbData, set_state, lift.
  rewrite Hg. cbn. rewrite He. reflexivity.
Qed.

(** A server that is down. *)
Definition env_offline : Env :=
  {| http := fun _ _ _ => Rejected (Str "Network Error");
     random := fun _ => 0%float;
     date_now := fun _ => 0%float;
     toISOString := fun _ => "" |}.

Lemma ab_page_failed_request_witness :
  render_prelude (fun _ => nan)
    (snd (fst (fetchData env_offline false initial_state initial_world)))
  = Threw.
Proof.
  apply (ab_page_failed_request_throws env_offline (fun _ => nan)
           initial_state initial_world).
  - reflexivity.
  - exists (Str "Network Error"). reflexivity.
Defined.

Lemma traverse_readable (f : Value -> option Value) (items : list Value) :
  (forall x, f x = None <-> readable x = false) ->
  traverse f items <> None <-> forallb readable items = true.
Proof.
  intros Hf. induction items as [|x items IH]; cbn.
  - split; [reflexivity|discriminate].
  - destruct (f x) as [y|] eqn:Ex.
    + assert (Hx : readable x = true).
      { destruct (readable x) eqn:E; [reflexivity|].
        apply Hf in E. congruence. }
      rewrite Hx. cbn. destruct (traverse f items).
      * split; [intros _; apply IH; discriminate|discriminate].
      * split; [congruence|]. intros H. apply IH in H. congruence.
    + apply Hf in Ex. rewrite Ex. cbn. split; [congruence|discriminate].
Qed.

Lemma showUpRate_entry_readable (number_of_text : Value -> float) (x : Value) :
  showUpRate_entry number_of_text x = None <-> readable x = false.
Proof. destruct x; cbn; split; congruence. Qed.

Lemma comparison_entry_readable (number_of_text : Value -> float) (x : Value) :
  comparison_entry number_of_text x = None <-> readable x = false.
Proof. destruct x; cbn; split; congruence. Qed.

(** What the page tolerates.  With [loading] false and no error set, the
    component gets past its preparation exactly when [abData.chart_data]
    and [abData.variants] are both arrays none of whose elements is [null]
    or [undefined]; fields that are missing or of another type inside the
    elements do not make it throw. *)
Theorem ab_page_renders_iff_arrays
  (number_of_text : Value -> float) (s : State) :
  loading s = false -> truthy (error s) = false ->
  (render_prelude number_of_text s <> Threw <->
   exists chart variants,
     get_prop (abData s) "chart_data" = Some (Arr chart)
     /\ get_prop (abData s) "variants" = Some (Arr variants)
     /\ forallb readable chart = true
     /\ forallb readable variants = true).
Proof.
  intros Hl He. unfold render_prelude. rewrite Hl, He.
  destruct (get_prop (abData s) "chart_data") as [cd|].
  2: { split; [congruence|]. intros (c & v & H & _). discriminate H. }
  destruct cd as [| | | | |chart|];
    try (cbn; split; [congruence|];
         intros (c & v & H & _); discriminate H).
  cbn [array_map].
  pose proof (traverse_readable (showUpRate_entry number_of_text) chart
                (showUpRate_entry_readable number_of_text)) as Hc.
  destruct (traverse (showUpRate_entry number_of_text) chart) as [sd|].
  2: { split; [congruence|]. intros (c & v & H & _ & Hr & _).
       injection H as <-. apply Hc in Hr. congruence. }
  destruct (get_prop (abData s) "variants") as [vs|].
  2: { split; [congruence|]. intros (c & v & _ & H & _). discriminate H. }
  destruct vs as [| | | | |variants|];
    try (cbn; split; [congruence|];
         intros (c & v & _ & H & _); discriminate H).
  cbn [array_map].
  pose proof (traverse_readable (comparison_entry number_of_text) variants
                (comparison_entry_readable number_of_text)) as Hv.
  destruct (traverse (comparison_entry number_of_text) variants) as [cdv|].
  - split; [|discriminate]. intros _. exists chart, variants.
    repeat split; [apply Hc|apply Hv]; discriminate.
  - split; [congruence|]. intros (c & v & _ & H & _ & Hr).
    injection H as <-. apply Hv in Hr. congruence.
Qed.

Lemma ab_page_renders_witness :
  render_prelude (fun _ => nan)
    {| abData := mockABTestingResults; loading := false; error := Null;
       activeView := "comparison" |} <> Threw <->
  exists chart variants,
    get_prop mockABTestingResults "chart_data" = Some (Arr chart)
    /\ get_prop mockABTestingResults "variants" = Some (Arr variants)
    /\ forallb readable chart = true
    /\ forallb readable variants = true.
Proof.
  apply (ab_page_renders_iff_arrays (fun _ => nan)
           {| abData := mockABTestingResults; loading := false; error := Null;
              activeView := "comparison" |}); reflexivity.
Defined.

End ABTestingPageProofs.

Module OverviewPage.
Import Js ApiService ApiEndpoints React JsOps.
Local Open Scope string_scope.

Record State : Type := {
  kpiData : Value;
  appointmentsData : Value;
  loading : bool;
  error : Value;
  recentAlerts : Value;
  waitTimeData : Value
}.

(** [useState(null)], [useState([])], [useState(true)], [useState(null)],
    [useState([])], [useState([])]. *)
Definition initial_state : State :=
  {| kpiData := Null; appointmentsData := Arr []; loading := true;
     error := Null; recentAlerts := Arr []; waitTimeData := Arr [] |}.

Definition setKpiData (v : Value) : PM State unit :=
  set_state (fun s =>
    {| kpiData := v; appointmentsData := appointmentsData s;
       loading := loading s; error := error s;
       recentAlerts := recentAlerts s; waitTimeData := waitTimeData s |}).

Definition setAppointmentsData (v : Value) : PM State unit :=
  set_state (fun s =>
    {| kpiData := kpiData s; appointmentsData := v;
       loading := loading s; error := error s;
       recentAlerts := recentAlerts s; waitTimeData := waitTimeData s |}).

Definition setLoading (b : bool) : PM State unit :=
  set_state (fun s =>
    {| kpiData := kpiData s; appointmentsData := appointmentsData s;
       loading := b; error := error s;
       recentAlerts := recentAlerts s; waitTimeData := waitTimeData s |}).

Definition setError (v : Value) : PM State unit :=
  set_state (fun s =>
    {| kpiData := kpiData s; appointmentsData := appointmentsData s;
       loading := loading s; error := v;
       recentAlerts := recentAlerts s; waitTimeData := waitTimeData s |}).

Definition setRecentAlerts (v : Value) : PM State unit :=
  set_state (fun s =>
    {| kpiData := kpiData s; appointmentsData := appointmentsData s;
       loading := loading s; error := error s;
       recentAlerts := v; waitTimeData := waitTimeData s |}).

Definition setWaitTimeData (v : Value) : PM State unit :=
  set_state (fun s =>
    {| kpiData := kpiData s; appointmentsData := appointmentsData s;
       loading := loading s; error := error s;
       recentAlerts := recentAlerts s; waitTimeData := v |}).

Definition failure_message : Value :=
  Str "Failed to load dashboard data. Please try again later.".

Section Page.
Variable env : Env.
Variable to_string : Value -> string.
Variable number_of_text : Value -> float.

(** The object built from the summary; reading a field of a [null] summary
    throws. *)
Definition transformedData (summaryResponse : Value) : PM State Value :=
  total <~ pread_prop summaryResponse "total_appointments" ;;
  show <~ pread_prop summaryResponse "show_up_rate" ;;
  no_show <~ pread_prop summaryResponse "no_show_rate" ;;
  high_risk <~ pread_prop summaryResponse "high_risk_appointments" ;;
  winner <~ pread_prop summaryResponse "ab_test_winner" ;;
  pret (Obj [("totalAppointments", total);
             ("showUpRate", mul number_of_text show (Num 100%float));
             ("noShowRate", mul number_of_text no_show (Num 100%float));
             ("highRiskAppointments", high_risk);
             ("abTestWinner", winner)]).

(** The effect's [fetchData]: four calls in a row inside one [try]. *)
Definition fetchData (use_mock : bool) : PM State unit :=
  ptry_catch
    (setLoading true ;;~
     summaryResponse <~ lift (getDashboardSummary env use_mock) ;;
     transformed <~ transformedData summaryResponse ;;
     setKpiData transformed ;;~
     appointmentsResponse <~
       lift (getAppointmentsByDate env to_string use_mock None) ;;
     setAppointmentsData appointmentsResponse ;;~
     alertsResponse <~ lift (getRecentAlerts env use_mock) ;;
     setRecentAlerts alertsResponse ;;~
     waitTimeResponse <~ lift (getWaitTimeVsSatisfaction env use_mock) ;;
     setWaitTimeData waitTimeResponse ;;~
     setLoading false)
    (fun err =>
       pconsole_error "Error fetching overview data:" err ;;~
       setError failure_message ;;~
       setLoading false).

End Page.

End OverviewPage.

(** ** Properties of the overview page *)

Module OverviewPageProofs.
Import Js ApiService ApiEndpoints React JsOps OverviewPage ApiServiceProofs
  ApiEndpointsProofs.
Local Open Scope string_scope.

(** The summary the page gets: the response's data, or [null] when the
    request fails. *)
Definition summary_of (o : Settled Response) : Value :=
  match o with
  | Resolved r => data r
  | Rejected _ => Null
  end.

Definition resolved {A : Type} (o : Settled A) : bool :=
  match o with
  | Resolved _ => true
  | Rejected _ => false
  end.

Lemma transformedData_run (number_of_text : Value -> float)
  (v : Value) (s : State) (w : World) :
  if readable v
  then exists t, transformedData number_of_text v s w = (Resolved t, s, w)
  else transformedData number_of_text v s w = (Rejected (Str "TypeError"), s, w).
Proof.
  destruct v; unfold transformedData, pbind, pread_prop, pret, pthrow; cbn;
    eauto.
Qed.

Lemma getDashboardSummary_run (env : Env) (w : World) :
  exists w',
    getDashboardSummary env false w
    = (Resolved (summary_of (http env (requests w) DashboardApi
                               "/dashboard/summary")), w')
    /\ requests w' = S (requests w).
Proof.
  destruct (guarded_get_call env DashboardApi "/dashboard/summary"
              "Error fetching dashboard summary:" Null w) as (w' & Hr & _ & H).
  change (guarded_get env DashboardApi "/dashboard/summary"
            "Error fetching dashboard summary:" Null)
    with (getDashboardSummary env false) in H.
  exists w'. split; [|exact Hr].
  destruct (http env (requests w) DashboardApi "/dashboard/summary");
    destruct H as [-> _]; reflexivity.
Qed.

Lemma getRecentAlerts_run (env : Env) (w : World) :
  exists v w',
    getRecentAlerts env false w = (Resolved v, w')
    /\ requests w' = S (requests w)
    /\ (rejected (http env (requests w) DashboardApi "/alerts/recent") ->
        v = Arr []).
Proof.
  destruct (guarded_get_call env DashboardApi "/alerts/recent"
              "Error fetching recent alerts:" (Arr []) w) as (w' & Hr & _ & H).
  change (guarded_get env DashboardApi "/alerts/recent"
            "Error fetching recent alerts:" (Arr []))
    with (getRecentAlerts env false) in H.
  destruct (http env (requests w) DashboardApi "/alerts/recent") as [r|e];
    destruct H as [-> _]; eexists; eexists; repeat split; try exact Hr.
  intros [e He]. discriminate He.
Qed.

Lemma plain_run (env : Env) (api : Api) (url : string) (w : World) :
  exists w',
    (response <- axios_get env api url ;; ret (data response)) w
    = (match http env (requests w) api url with
       | Resolved r => Resolved (data r)
       | Rejected e => Rejected e
       end, w')
    /\ requests w' = S (requests w).
Proof.
  destruct (plain_get_call env api url w) as (w' & Hr & _ & _ & H).
  exists w'. split; assumption.
Qed.

(** With the mock flag off, the overview's [fetchData] never rejects and
    always ends with [loading] false.  It sets the error message exactly
    when the summary cannot be read (its request failed, so that the service
    returned [null], or the server sent [null]), or the appointments request
    or the wait-time request is rejected; a failed alerts request is
    tolerated and shows as an empty list.  It stops at the first failure:
    one, two or four requests are made. *)
Theorem overview_fetch_outcome
  (env : Env) (to_string : Value -> string)
  (number_of_text : Value -> float) (s : State) (w : World) :
  let n := requests w in
  let ok1 := readable (summary_of (http env n DashboardApi
                                     "/dashboard/summary")) in
  let ok2 := resolved (http env (S n) ApiInstance
                         ("/overview/appointments?days="
                          ++ to_string (Num 90%float))) in
  let ok4 := resolved (http env (S (S (S n))) ApiInstance
                         "/operational/satisfaction") in
  exists s' w',
    fetchData env to_string number_of_text false s w = (Resolved tt, s', w')
    /\ loading s' = false
    /\ error s' = (if ok1 && ok2 && ok4 then error s else failure_message)
    /\ requests w'
       = (n + (if ok1 then if ok2 then 4 else 2 else 1))%nat
    /\ (ok1 && ok2 && ok4 = true ->
        rejected (http env (S (S n)) DashboardApi "/alerts/recent") ->
        recentAlerts s' = Arr []).
Proof.
  cbv zeta.
  unfold fetchData, ptry_catch.
  unfold pbind at 1. unfold setLoading at 1, set_state at 1.
  unfold pbind at 1, lift at 1.
  destruct (getDashboardSummary_run env w) as (w1 & -> & Hr1).
  set (summary := summary_of _).
  unfold pbind at 1.
  match goal with
  | |- context [transformedData ?nt ?v ?s0 ?w0] =>
      pose proof (transformedData_run nt v s0 w0) as Ht
  end.
  destruct (readable summary); cbn [andb].
  2: { rewrite Ht. cbn. eexists; eexists. split; [reflexivity|].
       cbn. repeat split; try lia; try discriminate. }
  destruct Ht as [t ->].
  unfold pbind at 1. unfold setKpiData at 1, set_state at 1.
  unfold pbind at 1, lift at 1.
  unfold getAppointmentsByDate.
  destruct (plain_run env ApiInstance
              ("/overview/appointments?days=" ++ to_string (Num 90%float)) w1)
    as (w2 & -> & Hr2).
  rewrite Hr1.
  destruct (http env (S (requests w)) ApiInstance _) as [r2|e2]; cbn [resolved andb].
  2: { cbn. eexists; eexists. split; [reflexivity|].
       cbn. repeat split; try lia; try discriminate. }
  unfold pbind at 1. unfold setAppointmentsData at 1, set_state at 1.
  unfold pbind at 1, lift at 1.
  destruct (getRecentAlerts_run env w2) as (alerts & w3 & -> & Hr3 & Ha).
  unfold pbind at 1. unfold setRecentAlerts at 1, set_state at 1.
  unfold pbind at 1, lift at 1.
  unfold getWaitTimeVsSatisfaction.
  destruct (plain_run env ApiInstance "/operational/satisfaction" w3)
    as (w4 & -> & Hr4).
  rewrite Hr3, Hr2, Hr1.
  destruct (http env (S (S (S (requests w)))) ApiInstance _) as [r4|e4];
    cbn [resolved].
  - cbn. eexists; eexists. split; [reflexivity|].
    cbn. repeat split; try lia.
    intros _ Hrej. apply Ha. rewrite Hr2, Hr1. exact Hrej.
  - cbn. eexists; eexists. split; [reflexivity|].
    cbn. repeat split; try lia; try discriminate.
Qed.

End OverviewPageProofs.

(** ** The feedback page *)

Module FeedbackLoop.
Import Js ApiService ApiEndpoints React.
Local Open Scope string_scope.

(** An appointment as [fetchAppointments] of this page builds it; every
    element of the page's list has these nine fields. *)
Record Appointment : Type := {
  id : float;
  patient_name : string;
  department : string;
  appointment_time : string;
  predicted : string;
  actual : string;
  is_correct : bool;
  feedback_submitted : bool;
  confidence : float
}.

(** The status line: [{ type, message }]. *)
Record Status : Type := { type : string; message : string }.

Record State : Type := {
  appointments : list Appointment;
  loading : bool;
  error : Value;
  feedbackStatus : option Status;
  submittingFeedback : bool;
  activeTab : string;
  (** the delays of the pending [setTimeout(() => setFeedbackStatus(null))] *)
  status_timers : list float
}.

Definition setAppointments (xs : list Appointment) : PM State unit :=
  set_state (fun s =>
    {| appointments := xs; loading := loading s; error := error s;
       feedbackStatus := feedbackStatus s;
       submittingFeedback := submittingFeedback s;
       activeTab := activeTab s; status_timers := status_timers s |}).

Definition setFeedbackStatus (st : option Status) : PM State unit :=
  set_state (fun s =>
    {| appointments := appointments s; loading := loading s;
       error := error s; feedbackStatus := st;
       submittingFeedback := submittingFeedback s;
       activeTab := activeTab s; status_timers := status_timers s |}).

Definition setSubmittingFeedback (b : bool) : PM State unit :=
  set_state (fun s =>
    {| appointments := appointments s; loading := loading s;
       error := error s; feedbackStatus := feedbackStatus s;
       submittingFeedback := b;
       activeTab := activeTab s; status_timers := status_timers s |}).

(** [setTimeout(() => { setFeedbackStatus(null); }, delay)]. *)
Definition clear_status_after (delay : float) : PM State unit :=
  set_state (fun s =>
    {| appointments := appointments s; loading := loading s;
       error := error s; feedbackStatus := feedbackStatus s;
       submittingFeedback := submittingFeedback s;
       activeTab := activeTab s;
       status_timers := status_timers s ++ [delay] |}).

(** [{ ...appointment, is_correct: value }]. *)
Definition with_is_correct (a : Appointment) (value : bool) : Appointment :=
  {| id := id a; patient_name := patient_name a; department := department a;
     appointment_time := appointment_time a; predicted := predicted a;
     actual := actual a; is_correct := value;
     feedback_submitted := feedback_submitted a;
     confidence := confidence a |}.

(** [{ ...a, feedback_submitted: true }]. *)
Definition with_feedback_submitted (a : Appointment) : Appointment :=
  {| id := id a; patient_name := patient_name a; department := department a;
     appointment_time := appointment_time a; predicted := predicted a;
     actual := actual a; is_correct := is_correct a;
     feedback_submitted := true;
     confidence := confidence a |}.

(** [a.id === id] on numbers. *)
Definition has_id (i : float) (a : Appointment) : bool := (id a =? i)%float.

(** [handleFeedbackChange(id, value)]: the list the handler sets, from the
    list it sees. *)
Definition handleFeedbackChange (i : float) (value : bool)
  (xs : list Appointment) : list Appointment :=
  map (fun a => if has_id i a then with_is_correct a value else a) xs.

(** The object sent to [logFeedback]. *)
Definition feedback_of (a : Appointment) : Value :=
  Obj [("appointment_id", Num (id a));
       ("prediction", Str (predicted a));
       ("actual", Str (actual a));
       ("is_correct", Bool (is_correct a))].

(** [handleSubmitFeedback(id)]; [seen] is the list the handler's closure
    holds, the one of the render that created it. *)
Definition handleSubmitFeedback (env : Env) (use_mock : bool) (i : float)
  (seen : list Appointment) : PM State unit :=
  match find (has_id i) seen with
  | None => pret tt
  | Some appointment =>
      setSubmittingFeedback true ;;~
      ptry_finally
        (ptry_catch
           (lift (logFeedback env use_mock (feedback_of appointment)) ;;~
            setAppointments
              (map (fun a => if has_id i a then with_feedback_submitted a
                             else a) seen) ;;~
            setFeedbackStatus
              (Some {| type := "success";
                       message := "Feedback submitted successfully!" |}) ;;~
            clear_status_after 3000%float)
           (fun err =>
              pconsole_error "Error submitting feedback:" err ;;~
              setFeedbackStatus
                (Some {| type := "error";
                         message := "Failed to submit feedback. Please try again." |})))
        (setSubmittingFeedback false)
  end.



End FeedbackLoop.

(** ** Properties of the feedback page *)

Module FeedbackLoopProofs.
Import Js ApiService ApiEndpoints React FeedbackLoop ApiServiceProofs
  ApiEndpointsProofs.
Local Open Scope string_scope.

Definition success_status : Status :=
  {| type := "success"; message := "Feedback submitted successfully!" |}.

Lemma logFeedback_resolves (env : Env) (use_mock : bool) (feedback : Value)
  (w : World) :
  exists v w',
    logFeedback env use_mock feedback w = (Resolved v, w')
    /\ forall e,
         use_mock = false ->
         http env (requests w) DashboardApi "/feedback/log" = Rejected e ->
         console w' = (console w ++ [("Error logging feedback:", e)])%list.
Proof.
  destruct use_mock.
  - eexists; eexists. split; [reflexivity|]. discriminate.
  - destruct (guarded_get_call env DashboardApi "/feedback/log"
                "Error logging feedback:"
                (Obj [("status", Str "error");
                      ("message", Str "Failed to log feedback")]) w)
      as (w' & _ & _ & H).
    change (guarded_get env DashboardApi "/feedback/log"
              "Error logging feedback:"
              (Obj [("status", Str "error");
                    ("message", Str "Failed to log feedback")]))
      with (logFeedback env false feedback) in H.
    destruct (http env (requests w) DashboardApi "/feedback/log") as [r|e0].
    + destruct H as [-> _]. eexists; eexists. split; [reflexivity|].
      discriminate.
    + destruct H as [-> Hc]. eexists; eexists. split; [reflexivity|].
      intros e _ He. injection He as <-. exact Hc.
Qed.

(** Submitting feedback.  When no appointment of the list has the id, the
    handler does nothing.  Otherwise it never rejects and always ends with
    the success message, the appointment marked as submitted and
    [submittingFeedback] false again, whether the request succeeded or not:
    [logFeedback] swallows a failed request, which shows in the console
    only, so the handler's own error message is never displayed. *)
Theorem submit_feedback_always_reports_success
  (env : Env) (use_mock : bool) (i : float) (seen : list Appointment)
  (s : State) (w : World) :
  (find (has_id i) seen = None ->
   handleSubmitFeedback env use_mock i seen s w = (Resolved tt, s, w))
  /\ (forall a, find (has_id i) seen = Some a ->
      exists s' w',
        handleSubmitFeedback env use_mock i seen s w = (Resolved tt, s', w')
        /\ feedbackStatus s' = Some success_status
        /\ submittingFeedback s' = false
        /\ appointments s'
           = map (fun a => if has_id i a then with_feedback_submitted a
                           else a) seen
        /\ status_timers s' = (status_timers s ++ [3000%float])%list
        /\ forall e,
             use_mock = false ->
             http env (requests w) DashboardApi "/feedback/log" = Rejected e ->
             console w'
             = (console w ++ [("Error logging feedback:", e)])%list).
Proof.
  split.
  - intros H. unfold handleSubmitFeedback. rewrite H. reflexivity.
  - intros a H. unfold handleSubmitFeedback. rewrite H.
    destruct (logFeedback_resolves env use_mock (feedback_of a) w)
      as (v & w' & Hl & Hc).
    unfold pbind, setSubmittingFeedback, set_state, ptry_finally, ptry_catch,
      lift.
    rewrite Hl. cbn.
    eexists; eexists. split; [reflexivity|]. cbn. repeat split. exact Hc.
Qed.

(** Changing the answer for one appointment: the list keeps its length
    and its ids; the appointments with that id get the new [is_correct] and
    keep every other field; the others are untouched.  Doing it twice is
    doing it once, and of two changes for the same id the later one
    stands. *)
Theorem feedback_change_touches_one_field
  (i : float) (value value' : bool) (xs : list Appointment) :
  List.length (handleFeedbackChange i value xs) = List.length xs
  /\ map id (handleFeedbackChange i value xs) = map id xs
  /\ Forall2 (fun a b =>
                if has_id i a then b = with_is_correct a value else b = a)
       xs (handleFeedbackChange i value xs)
  /\ handleFeedbackChange i value (handleFeedbackChange i value xs)
     = handleFeedbackChange i value xs
  /\ handleFeedbackChange i value' (handleFeedbackChange i value xs)
     = handleFeedbackChange i value' xs.
Proof.
  unfold handleFeedbackChange.
  assert (Hstep : forall v v' a,
             (if has_id i (if has_id i a then with_is_correct a v else a)
              then with_is_correct
                     (if has_id i a then with_is_correct a v else a) v'
              else if has_id i a then with_is_correct a v else a)
             = (if has_id i a then with_is_correct a v' else a)).
  { intros v v' a. destruct (has_id i a) eqn:E.
    - change (has_id i (with_is_correct a v)) with (has_id i a).
      rewrite E. reflexivity.
    - cbv iota. rewrite E. reflexivity. }
  split; [apply length_map|]. split; [|split; [|split]].
  - rewrite map_map. apply map_ext. intros a.
    destruct (has_id i a); reflexivity.
  - induction xs as [|a xs IH]; cbn [map]; constructor; [|exact IH].
    cbv beta. destruct (has_id i a); reflexivity.
  - rewrite map_map. apply map_ext. intros a. apply Hstep.
  - rewrite map_map. apply map_ext. intros a. apply Hstep.
Qed.

(** *** The department chart *)









End FeedbackLoopProofs.

(** ** Two display components of the pages *)

Module Components.
Import Js JsOps.
Local Open Scope string_scope.

Section CorrelationMatrix.
Variable number_of_text : Value -> float.

(** [getColorClass(value)] of [CorrelationMatrix.jsx]. *)
Definition getColorClass (value : Value) : string :=
  let x := to_number number_of_text value in
  let absValue := abs x in
  if (0.7 <=? absValue)%float then
    if (0 <=? x)%float then "bg-blue-100 text-blue-800"
    else "bg-red-100 text-red-800"
  else if (0.4 <=? absValue)%float then
    if (0 <=? x)%float then "bg-blue-50 text-blue-600"
    else "bg-red-50 text-red-600"
  else "bg-gray-50 text-gray-600".

(** [getCorrelationLabel(value)]. *)
Definition getCorrelationLabel (value : Value) : string :=
  let x := to_number number_of_text value in
  let absValue := abs x in
  if (0.7 <=? absValue)%float then
    if (0 <=? x)%float then "Strong Positive" else "Strong Negative"
  else if (0.4 <=? absValue)%float then
    if (0 <=? x)%float then "Moderate Positive" else "Moderate Negative"
  else if (0.2 <=? absValue)%float then
    if (0 <=? x)%float then "Weak Positive" else "Weak Negative"
  else "No Correlation".

End CorrelationMatrix.

(** One step of the colour scale of [HeatmapCard]: [{ threshold, color }]. *)
Record ColorStep : Type := { threshold : float; color : string }.

(** The default [colorScale]. *)
Definition default_colorScale : list ColorStep :=
  [ {| threshold := 0.05; color := "bg-green-100 border-green-300 text-green-800" |};
    {| threshold := 0.1; color := "bg-yellow-100 border-yellow-300 text-yellow-800" |};
    {| threshold := infinity; color := "bg-red-100 border-red-300 text-red-800" |} ].

Section HeatmapCard.
Variable number_of_text : Value -> float.

(** The loop of [getColorClass]: the colour of the first step whose
    threshold the value does not exceed. *)
Fixpoint first_step (x : float) (scale : list ColorStep) : option string :=
  match scale with
  | [] => None
  | step :: rest =>
      if (x <=? threshold step)%float then Some (color step)
      else first_step x rest
  end.

(** [getColorClass(value)] of the heatmap card; [None] stands for the
    [TypeError] of [colorScale[-1].color] on an empty scale. *)
Definition heatmap_getColorClass (colorScale : list ColorStep) (value : Value)
  : option string :=
  match first_step (to_number number_of_text value) colorScale with
  | Some c => Some c
  | None =>
      match List.last (map Some colorScale) None with
      | Some step => Some (color step)
      | None => None
      end
  end.

End HeatmapCard.

End Components.

(** ** Properties of the display components *)

Module ComponentsProofs.
Import Js JsOps Components FloatFacts.
Local Open Scope string_scope.

(** The mirror image of a label. *)
Definition mirrored (label : string) : string :=
  if String.eqb label "Strong Positive" then "Strong Negative"
  else if String.eqb label "Strong Negative" then "Strong Positive"
  else if String.eqb label "Moderate Positive" then "Moderate Negative"
  else if String.eqb label "Moderate Negative" then "Moderate Positive"
  else if String.eqb label "Weak Positive" then "Weak Negative"
  else if String.eqb label "Weak Negative" then "Weak Positive"
  else label.

(** Away from zero, a number and its opposite lie on different sides of
    zero. *)
Lemma sign_flips (x t : float) :
  (0 <? t)%float = true -> (t <=? abs x)%float = true ->
  (0 <=? - x)%float = negb (0 <=? x)%float.
Proof.
  rewrite ltb_spec, !leb_spec, abs_spec, opp_spec.
  change (Prim2SF 0) with (S754_zero false).
  destruct (Prim2SF x) as [s|s| |s m e]; cbn [SFabs SFopp].
  - destruct (Prim2SF t) as [s'|s'| |s' m' e']; cbn;
      try discriminate; destruct s'; discriminate.
  - intros _ _. destruct s; reflexivity.
  - destruct (Prim2SF t) as [s'|s'| |s' m' e']; cbn;
      try discriminate; destruct s'; discriminate.
  - intros _ _. destruct s; reflexivity.
Qed.

(** The colour and the label of a correlation agree: the strong shades go
    with the strong labels, the light shades with the moderate ones and
    grey with the weak labels and with "No Correlation"; blue goes with
    positive and red with negative.  A value that is not a number is grey
    and has no correlation. *)
Theorem correlation_colour_matches_label
  (number_of_text : Value -> float) (value : Value) :
  let c := getColorClass number_of_text value in
  let l := getCorrelationLabel number_of_text value in
  (c = "bg-blue-100 text-blue-800" <-> l = "Strong Positive")
  /\ (c = "bg-red-100 text-red-800" <-> l = "Strong Negative")
  /\ (c = "bg-blue-50 text-blue-600" <-> l = "Moderate Positive")
  /\ (c = "bg-red-50 text-red-600" <-> l = "Moderate Negative")
  /\ (c = "bg-gray-50 text-gray-600" <->
      l = "Weak Positive" \/ l = "Weak Negative" \/ l = "No Correlation")
  /\ (is_nan (to_number number_of_text value) = true ->
      c = "bg-gray-50 text-gray-600" /\ l = "No Correlation").
Proof.
  cbv zeta. unfold getColorClass, getCorrelationLabel.
  set (x := to_number number_of_text value).
  split; [|split; [|split; [|split; [|split]]]].
  6: { intros Hn. apply is_nan_eq in Hn. rewrite Hn. split; reflexivity. }
  all: destruct (0.7 <=? abs x)%float, (0.4 <=? abs x)%float,
         (0.2 <=? abs x)%float, (0 <=? x)%float;
    split; intros H; try discriminate H; try reflexivity;
    try (destruct H as [H|[H|H]]; discriminate H); auto.
Qed.

(** The label of the opposite number is the mirror image of the label:
    strong, moderate and weak stay, positive and negative swap, and "No
    Correlation" stays. *)
Theorem correlation_label_of_opposite (number_of_text : Value -> float)
  (x : float) :
  getCorrelationLabel number_of_text (Num (- x)%float)
  = mirrored (getCorrelationLabel number_of_text (Num x)).
Proof.
  unfold getCorrelationLabel. cbn [to_number]. rewrite abs_opp.
  destruct (0.7 <=? abs x)%float eqn:E7.
  { rewrite (sign_flips x 0.7%float eq_refl E7).
    destruct (0 <=? x)%float; reflexivity. }
  destruct (0.4 <=? abs x)%float eqn:E4.
  { rewrite (sign_flips x 0.4%float eq_refl E4).
    destruct (0 <=? x)%float; reflexivity. }
  destruct (0.2 <=? abs x)%float eqn:E2.
  { rewrite (sign_flips x 0.2%float eq_refl E2).
    destruct (0 <=? x)%float; reflexivity. }
  reflexivity.
Qed.

Lemma leb_nan_l (x t : float) :
  is_nan x = true -> (x <=? t)%float = false.
Proof.
  intros Hn. apply is_nan_eq in Hn. subst x.
  rewrite leb_spec. reflexivity.
Qed.

Lemma first_step_in (x : float) (scale : list ColorStep) (c : string) :
  first_step x scale = Some c -> In c (map color scale).
Proof.
  induction scale as [|step rest IH]; cbn; [discriminate|].
  destruct (x <=? threshold step)%float.
  - intros [= <-]. now left.
  - intros H. right. now apply IH.
Qed.

Lemma first_step_nan (x : float) (scale : list ColorStep) :
  is_nan x = true -> first_step x scale = None.
Proof.
  intros Hn. induction scale as [|step rest IH]; cbn; [reflexivity|].
  now rewrite (leb_nan_l x _ Hn).
Qed.

Lemma last_step (scale : list ColorStep) :
  match List.last (map Some scale) None with
  | Some step => exists front, scale = (front ++ [step])%list
  | None => scale = []
  end.
Proof.
  induction scale as [|a [|b rest] IH]; [reflexivity| |].
  - cbn. now exists [].
  - change (List.last (map Some (a :: b :: rest)) None)
      with (List.last (map Some (b :: rest)) None).
    destruct (List.last (map Some (b :: rest)) None) as [step|].
    + destruct IH as [front ->]. now exists (a :: front).
    + discriminate IH.
Qed.

(** The heatmap card's [getColorClass] throws exactly on an empty colour
    scale; on any other scale it returns one of the scale's colours,
    whatever the value, and a value that is not a number (a missing field
    among them) gets the last colour of the scale. *)
Theorem heatmap_colour_comes_from_scale
  (number_of_text : Value -> float) (colorScale : list ColorStep)
  (value : Value) :
  match heatmap_getColorClass number_of_text colorScale value with
  | None => colorScale = []
  | Some c =>
      In c (map color colorScale)
      /\ (is_nan (to_number number_of_text value) = true ->
          exists front, map color colorScale = (front ++ [c])%list)
  end.
Proof.
  unfold heatmap_getColorClass.
  destruct (first_step (to_number number_of_text value) colorScale)
    as [c|] eqn:E.
  - split; [now apply first_step_in in E|].
    intros Hn. rewrite (first_step_nan _ colorScale Hn) in E. discriminate E.
  - pose proof (last_step colorScale) as L.
    destruct (List.last (map Some colorScale) None) as [step|]; [|exact L].
    destruct L as [front ->]. rewrite map_app. cbn [map]. split.
    + apply in_or_app. right. now left.
    + intros _. now exists (map color front).
Qed.

(** With the default scale a rate of at most 5% is green, one above 5% and
    at most 10% is yellow, and every other value is red, a value that is
    not a number included. *)
Theorem heatmap_default_scale (number_of_text : Value -> float)
  (value : Value) :
  let x := to_number number_of_text value in
  heatmap_getColorClass number_of_text default_colorScale value
  = Some (if (x <=? 0.05)%float
          then "bg-green-100 border-green-300 text-green-800"
          else if (x <=? 0.1)%float
          then "bg-yellow-100 border-yellow-300 text-yellow-800"
          else "bg-red-100 border-red-300 text-red-800").
Proof.
  cbv zeta. unfold heatmap_getColorClass, default_colorScale.
  cbn [first_step threshold color].
  destruct (to_number number_of_text value <=? 0.05)%float; [reflexivity|].
  destruct (to_number number_of_text value <=? 0.1)%float; [reflexivity|].
  destruct (to_number number_of_text value <=? infinity)%float; reflexivity.
Qed.

End ComponentsProofs.
